(** * CrearPelicula: a shallow embedding of the movie-creation handler

    The development follows [src/CrearPelicula.py]: the structured logger
    ([make_log_entry], [print_log], [append_log_file]), the log reader
    ([load_logs], [filter_by_tipo], [count_by_tipo]) and the request handler
    ([lambda_handler]).

    Python values are restricted to the JSON-native ones, the only values the
    handler ever sees (the event is a decoded JSON document).  Effects (clock,
    standard output, the file system, the process environment, the random
    source and the table service) are threaded through an explicit [world],
    and exceptions are results: a computation returns or raises.

    The library functions the source calls are modelled as CPython defines
    them: [json.dumps] and [json.loads] character by character, [str.strip],
    text files read with universal newlines, [uuid.uuid4] and its printing.
    The queries are given twice: on lists of dicts, as the source annotates
    them, and in [Loaded] on whatever values [load_logs] returns, where an
    entry that is not a dict raises.
    Left out: binary floating point (a float is kept as the text that prints
    it, and the conversion of a literal is a parameter), the interpreter's
    recursion and integer-length limits, text that cannot be encoded, and
    failures of [print], of reading a file and of building the table client. *)

From Stdlib Require Import List ZArith NArith Lia String Ascii Bool.
From Stdlib Require Import DecimalN DecimalFacts.
From stdpp Require Import gmap list.
Import ListNotations.

#[local] Set Warnings "-register-all".
Local Open Scope N_scope.

(** ** Text

    A Python [str] is a sequence of code points.  Characters are written by
    code point: 34 the double quote, 92 the backslash, 47 the slash, 123 and
    125 the braces, 91 and 93 the brackets, 44 the comma, 58 the colon, 45 and
    43 the signs, 46 the point, 101 and 69 the letter e, 48 to 57 the digits,
    117 the letter u, 32 the space, 9 the tab, 10 the line feed and 13 the
    carriage return. *)

Abbreviation pystr := (list N).

(** [u "abc"] is the Python string ['abc'] (ASCII literals only). *)
Definition u (s : string) : pystr :=
  map N_of_ascii (list_ascii_of_string s).

(** The double quote, which the literals above cannot hold. *)
Definition dq : N := 34.

Fixpoint pystr_eqb (a b : pystr) : bool :=
  match a, b with
  | [], [] => true
  | c :: a', d :: b' => (c =? d) && pystr_eqb a' b'
  | _, _ => false
  end.

Fixpoint starts_with (p s : pystr) : bool :=
  match p, s with
  | [], _ => true
  | c :: p', d :: s' => (c =? d) && starts_with p' s'
  | _ :: _, [] => false
  end.

(** [sep.join(parts)] *)
Fixpoint join (sep : pystr) (parts : list pystr) : pystr :=
  match parts with
  | [] => []
  | [p] => p
  | p :: rest => p ++ sep ++ join sep rest
  end.

(** ** Values *)

Inductive pyval :=
| PNone
| PBool (b : bool)
| PInt (z : Z)
| PFloat (repr : pystr)
| PStr (s : pystr)
| PList (l : list pyval)
| PDict (d : list (pystr * pyval)).

(** A [dict] with [str] keys, in insertion order.  A float is kept as the text
    [json.dumps] prints for it (its [repr], or [NaN], [Infinity],
    [-Infinity]); the handler never computes with one. *)
Abbreviation pydict := (list (pystr * pyval)).

Fixpoint dict_get (k : pystr) (d : pydict) : option pyval :=
  match d with
  | [] => None
  | (k', v) :: d' => if pystr_eqb k' k then Some v else dict_get k d'
  end.

(** [d[k] = v]: an existing key keeps its position, a new one goes last. *)
Fixpoint dict_set (k : pystr) (v : pyval) (d : pydict) : pydict :=
  match d with
  | [] => [(k, v)]
  | (k', v') :: d' =>
      if pystr_eqb k' k then (k', v) :: d' else (k', v') :: dict_set k v d'
  end.

(** [dict(pairs)], and [{**d, **pairs}] when started from [d]. *)
Definition dict_update (d : pydict) (pairs : pydict) : pydict :=
  fold_left (fun acc kv => dict_set (fst kv) (snd kv) acc) pairs d.

Definition dict_of_pairs (pairs : pydict) : pydict := dict_update [] pairs.

(** No key occurs twice: what every [dict] satisfies. *)
Fixpoint keys_unique (ks : list pystr) : bool :=
  match ks with
  | [] => true
  | k :: ks' => negb (existsb (pystr_eqb k) ks') && keys_unique ks'
  end.


(** Induction over values that reaches inside lists and dicts. *)
Section pyval_induction.
Variable P : pyval -> Prop.
Hypothesis HNone : P PNone.
Hypothesis HBool : forall b, P (PBool b).
Hypothesis HInt : forall z, P (PInt z).
Hypothesis HFloat : forall r, P (PFloat r).
Hypothesis HStr : forall s, P (PStr s).
Hypothesis HList : forall l, Forall P l -> P (PList l).
Hypothesis HDict : forall d, Forall (fun kv => P (snd kv)) d -> P (PDict d).

Fixpoint pyval_nested_ind (v : pyval) : P v :=
  match v with
  | PNone => HNone
  | PBool b => HBool b
  | PInt z => HInt z
  | PFloat r => HFloat r
  | PStr s => HStr s
  | PList l =>
      HList l ((fix go (l : list pyval) : Forall P l :=
                  match l with
                  | [] => List.Forall_nil P
                  | x :: l' => List.Forall_cons P x l' (pyval_nested_ind x) (go l')
                  end) l)
  | PDict d =>
      HDict d ((fix go (d : pydict) : Forall (fun kv => P (snd kv)) d :=
                  match d with
                  | [] => List.Forall_nil _
                  | kv :: d' => List.Forall_cons _ kv d' (pyval_nested_ind (snd kv)) (go d')
                  end) d)
  end.
End pyval_induction.

(** ** Integers in decimal: [int.__repr__] and [int(literal)] *)

Fixpoint uint_chars (d : Decimal.uint) : pystr :=
  match d with
  | Decimal.Nil => []
  | Decimal.D0 d => 48 :: uint_chars d
  | Decimal.D1 d => 49 :: uint_chars d
  | Decimal.D2 d => 50 :: uint_chars d
  | Decimal.D3 d => 51 :: uint_chars d
  | Decimal.D4 d => 52 :: uint_chars d
  | Decimal.D5 d => 53 :: uint_chars d
  | Decimal.D6 d => 54 :: uint_chars d
  | Decimal.D7 d => 55 :: uint_chars d
  | Decimal.D8 d => 56 :: uint_chars d
  | Decimal.D9 d => 57 :: uint_chars d
  end.

Definition is_digit (c : N) : bool := (48 <=? c) && (c <=? 57).

Fixpoint uint_of_chars (s : pystr) : Decimal.uint :=
  match s with
  | [] => Decimal.Nil
  | c :: t =>
      let d := uint_of_chars t in
      match c - 48 with
      | 0 => Decimal.D0 d
      | 1 => Decimal.D1 d
      | 2 => Decimal.D2 d
      | 3 => Decimal.D3 d
      | 4 => Decimal.D4 d
      | 5 => Decimal.D5 d
      | 6 => Decimal.D6 d
      | 7 => Decimal.D7 d
      | 8 => Decimal.D8 d
      | _ => Decimal.D9 d
      end
  end.

Definition repr_N (n : N) : pystr := uint_chars (N.to_uint n).

(** [repr(z)] for an [int]. *)
Definition repr_int (z : Z) : pystr :=
  match z with
  | Z0 => repr_N 0
  | Zpos p => repr_N (Npos p)
  | Zneg p => 45 :: repr_N (Npos p)
  end.

(** [int(lit)] for a literal matched by the integer group of the number
    pattern: an optional minus sign and decimal digits. *)
Definition int_of_literal (lit : pystr) : Z :=
  match lit with
  | 45 :: ds => Z.opp (Z.of_N (N.of_uint (uint_of_chars ds)))
  | ds => Z.of_N (N.of_uint (uint_of_chars ds))
  end.

(** ** [json.dumps(v, ensure_ascii=False)] *)

Definition hex_digit (d : N) : N := if d <? 10 then 48 + d else 87 + d.

(** [ESCAPE_DCT]: the quote, the backslash and the control characters. *)
Definition escape_char (c : N) : pystr :=
  if c =? 34 then [92; 34]                (* the quote *)
  else if c =? 92 then [92; 92]           (* the backslash *)
  else if c =? 10 then [92; 110]          (* \n *)
  else if c =? 13 then [92; 114]          (* \r *)
  else if c =? 9 then [92; 116]           (* \t *)
  else if c =? 8 then [92; 98]            (* \b *)
  else if c =? 12 then [92; 102]          (* \f *)
  else if c <? 32 then [92; 117; 48; 48; hex_digit (c / 16); hex_digit (c mod 16)]
  else [c].

Definition encode_basestring (s : pystr) : pystr :=
  dq :: flat_map escape_char s ++ [dq].

Fixpoint json_dumps (v : pyval) : pystr :=
  match v with
  | PNone => u "null"
  | PBool true => u "true"
  | PBool false => u "false"
  | PInt z => repr_int z
  | PFloat r => r
  | PStr s => encode_basestring s
  | PList l => u "[" ++ join (u ", ") (map json_dumps l) ++ u "]"
  | PDict d =>
      u "{"
      ++ join (u ", ")
           (map (fun kv => encode_basestring (fst kv) ++ u ": " ++ json_dumps (snd kv)) d)
      ++ u "}"
  end.

(** One [key: value] member of an object as [json_dumps] prints it. *)
Definition member (kv : pystr * pyval) : pystr :=
  encode_basestring (fst kv) ++ u ": " ++ json_dumps (snd kv).

(** ** [json.loads(s)]

    The decoder follows the scanner of the [json] module: [scanstring] for
    string literals, the number pattern, [JSONArray] and [JSONObject], and
    [scan_once] dispatching on the next character.  [None] stands for
    [JSONDecodeError]. *)

Definition is_ws (c : N) : bool :=
  (c =? 32) || (c =? 9) || (c =? 10) || (c =? 13).

Fixpoint skip_ws (s : pystr) : pystr :=
  match s with
  | c :: t => if is_ws c then skip_ws t else s
  | [] => []
  end.

Definition hex_val (c : N) : option N :=
  if (48 <=? c) && (c <=? 57) then Some (c - 48)
  else if (97 <=? c) && (c <=? 102) then Some (c - 87)
  else if (65 <=? c) && (c <=? 70) then Some (c - 55)
  else None.

Definition hex4 (a b c d : N) : option N :=
  match hex_val a, hex_val b, hex_val c, hex_val d with
  | Some x, Some y, Some z, Some w => Some (((x * 16 + y) * 16 + z) * 16 + w)
  | _, _, _, _ => None
  end.

(** [BACKSLASH]: the one-character escapes. *)
Definition unescape (e : N) : option N :=
  if e =? 34 then Some 34
  else if e =? 92 then Some 92
  else if e =? 47 then Some 47
  else if e =? 98 then Some 8
  else if e =? 102 then Some 12
  else if e =? 110 then Some 10
  else if e =? 114 then Some 13
  else if e =? 116 then Some 9
  else None.

Definition is_high_surrogate (c : N) : bool := (55296 <=? c) && (c <=? 56319).
Definition is_low_surrogate (c : N) : bool := (56320 <=? c) && (c <=? 57343).

(** [scanstring(s, end, strict=True)], started just after the opening quote:
    the decoded text and what follows the closing quote. *)
Fixpoint scanstring (s : pystr) : option (pystr * pystr) :=
  match s with
  | [] => None
  | c :: t =>
      if c =? 34 then Some ([], t)                (* the closing quote *)
      else if c =? 92 then                         (* a backslash escape *)
        match t with
        | [] => None
        | e :: t1 =>
            if e =? 117 then                       (* u and four hex digits *)
              match t1 with
              | h1 :: h2 :: h3 :: h4 :: t2 =>
                  match hex4 h1 h2 h3 h4 with
                  | None => None
                  | Some uni =>
                      let lone :=
                        match scanstring t2 with
                        | Some (str, r) => Some (uni :: str, r)
                        | None => None
                        end in
                      if is_high_surrogate uni then
                        (* joined with a low surrogate that follows *)
                        match t2 with
                        | 92 :: 117 :: t3 =>
                            match t3 with
                            | l1 :: l2 :: l3 :: l4 :: t4 =>
                                match hex4 l1 l2 l3 l4 with
                                | None => None
                                | Some uni2 =>
                                    if is_low_surrogate uni2 then
                                      match scanstring t4 with
                                      | Some (str, r) =>
                                          Some (65536 + ((uni - 55296) * 1024 + (uni2 - 56320)) :: str, r)
                                      | None => None
                                      end
                                    else lone
                                end
                            | _ => None
                            end
                        | _ => lone
                        end
                      else lone
                  end
              | _ => None
              end
            else
              match unescape e with
              | None => None
              | Some ch =>
                  match scanstring t1 with
                  | Some (str, r) => Some (ch :: str, r)
                  | None => None
                  end
              end
        end
      else if c <? 32 then None                    (* a raw control character *)
      else
        match scanstring t with
        | Some (str, r) => Some (c :: str, r)
        | None => None
        end
  end.

(** The number pattern, group by group: an optional minus sign followed by
    [0] or by a non-zero digit and more digits; then, optionally, a point and
    one or more digits; then, optionally, [e] or [E], an optional sign and one
    or more digits. *)

Fixpoint span_digits (s : pystr) : pystr * pystr :=
  match s with
  | c :: t =>
      if is_digit c then let '(ds, r) := span_digits t in (c :: ds, r)
      else ([], s)
  | [] => ([], [])
  end.

Definition match_natural (s : pystr) : option (pystr * pystr) :=
  match s with
  | c :: t =>
      if c =? 48 then Some ([48], t)
      else if is_digit c then let '(ds, r) := span_digits t in Some (c :: ds, r)
      else None
  | [] => None
  end.

Definition match_integer (s : pystr) : option (pystr * pystr) :=
  match s with
  | 45 :: t =>
      match match_natural t with
      | Some (ds, r) => Some (45 :: ds, r)
      | None => None
      end
  | _ => match_natural s
  end.

Definition match_frac (s : pystr) : pystr * pystr :=
  match s with
  | 46 :: c :: t =>
      if is_digit c then let '(ds, r) := span_digits t in (46 :: c :: ds, r)
      else ([], s)
  | _ => ([], s)
  end.

Definition match_digits1 (s : pystr) : option (pystr * pystr) :=
  match s with
  | c :: t =>
      if is_digit c then let '(ds, r) := span_digits t in Some (c :: ds, r)
      else None
  | [] => None
  end.

Definition match_exp (s : pystr) : pystr * pystr :=
  match s with
  | e :: t =>
      if (e =? 101) || (e =? 69) then
        match t with
        | sg :: t' =>
            if (sg =? 43) || (sg =? 45) then
              match match_digits1 t' with
              | Some (ds, r) => (e :: sg :: ds, r)
              | None => ([], s)
              end
            else
              match match_digits1 t with
              | Some (ds, r) => (e :: ds, r)
              | None => ([], s)
              end
        | [] => ([], s)
        end
      else ([], s)
  | [] => ([], s)
  end.

Section Decoder.

(** [float(lit)] for a literal with a fraction or an exponent, as the text
    [json.dumps] prints for the result.  Binary floating point is outside this
    development, so the conversion is left open. *)
Variable float_of_literal : pystr -> pystr.

Definition match_number (s : pystr) : option (pyval * pystr) :=
  match match_integer s with
  | None => None
  | Some (i, r1) =>
      let '(f, r2) := match_frac r1 in
      let '(e, r3) := match_exp r2 in
      match f, e with
      | [], [] => Some (PInt (int_of_literal i), r3)
      | _, _ => Some (PFloat (float_of_literal (i ++ f ++ e)), r3)
      end
  end.

(** The loop of [JSONArray], entered before a value; [acc] holds the values
    read so far and [n] bounds the iterations (each one consumes a comma). *)
Fixpoint parse_elements (scan : pystr -> option (pyval * pystr))
    (n : nat) (s : pystr) (acc : list pyval) : option (pyval * pystr) :=
  match n with
  | O => None
  | S n' =>
      match scan s with
      | None => None
      | Some (v, r) =>
          match skip_ws r with
          | c :: r' =>
              if c =? 93 then Some (PList (acc ++ [v]), r')          (* ] *)
              else if c =? 44 then                                   (* , *)
                parse_elements scan n' (skip_ws r') (acc ++ [v])
              else None
          | [] => None
          end
      end
  end.

(** [JSONArray], entered after the opening bracket. *)
Definition parse_array (scan : pystr -> option (pyval * pystr))
    (s : pystr) : option (pyval * pystr) :=
  match skip_ws s with
  | c :: r =>
      if c =? 93 then Some (PList [], r)
      else parse_elements scan (length (c :: r)) (c :: r) []
  | [] => None
  end.

(** The loop of [JSONObject], entered after the opening quote of a key. *)
Fixpoint parse_members (scan : pystr -> option (pyval * pystr))
    (n : nat) (s : pystr) (acc : pydict) : option (pyval * pystr) :=
  match n with
  | O => None
  | S n' =>
      match scanstring s with
      | None => None
      | Some (key, r) =>
          match skip_ws r with
          | c :: r1 =>
              if c =? 58 then                                        (* : *)
                match scan (skip_ws r1) with
                | None => None
                | Some (v, r2) =>
                    match skip_ws r2 with
                    | c2 :: r3 =>
                        if c2 =? 125 then                            (* } *)
                          Some (PDict (dict_of_pairs (acc ++ [(key, v)])), r3)
                        else if c2 =? 44 then                        (* , *)
                          match skip_ws r3 with
                          | c3 :: r4 =>
                              if c3 =? 34 then                       (* the next key *)
                                parse_members scan n' r4 (acc ++ [(key, v)])
                              else None
                          | [] => None
                          end
                        else None
                    | [] => None
                    end
                end
              else None
          | [] => None
          end
      end
  end.

(** [JSONObject], entered after the opening brace. *)
Definition parse_object (scan : pystr -> option (pyval * pystr))
    (s : pystr) : option (pyval * pystr) :=
  match skip_ws s with
  | c :: r =>
      if c =? 125 then Some (PDict [], r)
      else if c =? 34 then parse_members scan (length r) r []
      else None
  | [] => None
  end.

(** [scan_once]; [fuel] bounds the nesting depth. *)
Fixpoint scan_once (fuel : nat) (s : pystr) : option (pyval * pystr) :=
  match fuel with
  | O => None
  | S fuel' =>
      match s with
      | [] => None
      | c :: t =>
          if c =? 34 then                          (* a string *)
            match scanstring t with
            | Some (str, r) => Some (PStr str, r)
            | None => None
            end
          else if c =? 123 then parse_object (scan_once fuel') t   (* an object *)
          else if c =? 91 then parse_array (scan_once fuel') t     (* an array *)
          else if starts_with (u "null") s then Some (PNone, drop 4 s)
          else if starts_with (u "true") s then Some (PBool true, drop 4 s)
          else if starts_with (u "false") s then Some (PBool false, drop 5 s)
          else
            match match_number s with
            | Some res => Some res
            | None =>
                if starts_with (u "NaN") s then Some (PFloat (u "NaN"), drop 3 s)
                else if starts_with (u "Infinity") s then
                  Some (PFloat (u "Infinity"), drop 8 s)
                else if starts_with (u "-Infinity") s then
                  Some (PFloat (u "-Infinity"), drop 9 s)
                else None
            end
      end
  end.

(** [json.loads(s)] for a [str]: a leading byte-order mark is refused, white
    space around the document is skipped, and nothing may follow it. *)
Definition json_loads (s : pystr) : option pyval :=
  if starts_with [65279] s then None
  else
    match scan_once (S (length s)) (skip_ws s) with
    | Some (v, r) =>
        match skip_ws r with
        | [] => Some v
        | _ :: _ => None
        end
    | None => None
    end.

(** A float as the decoder itself would have produced it: one of the three
    constants, or a number literal that decodes to a float printed the same. *)
Definition float_ok (r : pystr) : bool :=
  pystr_eqb r (u "NaN") || pystr_eqb r (u "Infinity") || pystr_eqb r (u "-Infinity")
  || match match_number r with
     | Some (PFloat r', []) => pystr_eqb r' r
     | _ => false
     end.

(** The values a Python program can hold: no dict has a key twice, and every
    float is one. *)
Fixpoint well_formed (v : pyval) : bool :=
  match v with
  | PFloat r => float_ok r
  | PList l => forallb well_formed l
  | PDict d => keys_unique (map fst d) && forallb (fun kv => well_formed (snd kv)) d
  | _ => true
  end.

End Decoder.

(** What may follow a value inside a document printed by [json_dumps]: the end
    of the text, a comma, or a closing bracket or brace. *)
Definition closes (rest : pystr) : bool :=
  match rest with
  | [] => true
  | c :: _ => (c =? 44) || (c =? 93) || (c =? 125)
  end.


(** A decimal numeral that starts with a non-zero digit. *)
Definition nz_lead (d : Decimal.uint) : Prop :=
  match d with
  | Decimal.Nil | Decimal.D0 _ => False
  | _ => True
  end.

(** The characters a printed value can start with. *)
Definition starts_value (c : N) : Prop :=
  c = 34 \/ c = 123 \/ c = 91 \/ c = 110 \/ c = 116 \/ c = 102 \/ c = 45
  \/ is_digit c = true \/ c = 78 \/ c = 73.



Section DecodedNotions.

Variable float_of_literal : pystr -> pystr.



End DecodedNotions.

(** ** Text files and [str.strip]

    A file opened in text mode with universal newlines: a line ends at a line
    feed, a carriage return or the pair of them, and reads with a line feed at
    its end; a last line without a terminator is kept as it is. *)
Fixpoint file_lines (s : pystr) : list pystr :=
  match s with
  | [] => []
  | c :: t =>
      if c =? 10 then [10] :: file_lines t
      else if c =? 13 then
        match t with
        | 10 :: t' => [10] :: file_lines t'
        | _ => [10] :: file_lines t
        end
      else
        match file_lines t with
        | [] => [[c]]
        | l :: ls => (c :: l) :: ls
        end
  end.

(** [str.isspace] for one character. *)
Definition is_space (c : N) : bool :=
  ((9 <=? c) && (c <=? 13)) || ((28 <=? c) && (c <=? 32))
  || (c =? 133) || (c =? 160) || (c =? 5760)
  || ((8192 <=? c) && (c <=? 8202))
  || (c =? 8232) || (c =? 8233) || (c =? 8239) || (c =? 8287) || (c =? 12288).




(** ** Exceptions *)

Inductive exn :=
| KeyError (key : pystr)
| TypeError (msg : pystr)
| AttributeError (msg : pystr)
| ClientError (msg : pystr)
| OtherError (type_name msg : pystr).

(** [ClientError] stands for the two classes of the storage client that the
    handler catches together, [BotoCoreError] and [ClientError]; [OtherError]
    for any exception of another class, named by [type_name]. *)

Inductive outcome (A : Type) :=
| Ret (a : A)
| Raise (e : exn).

Arguments Ret {A} a.
Arguments Raise {A} e.

(** [e.__class__.__name__] *)
Definition class_name (e : exn) : pystr :=
  match e with
  | KeyError _ => u "KeyError"
  | TypeError _ => u "TypeError"
  | AttributeError _ => u "AttributeError"
  | ClientError _ => u "ClientError"
  | OtherError name _ => name
  end.

(** [str(e)]: a [KeyError] prints the [repr] of its key, which for a key
    without quotes, backslashes or unprintable characters is the key between
    single quotes. *)
Definition str_exn (e : exn) : pystr :=
  match e with
  | KeyError k => u "'" ++ k ++ u "'"
  | TypeError msg | AttributeError msg | ClientError msg | OtherError _ msg => msg
  end.

(** [type(v).__name__] *)
Definition type_name_of (v : pyval) : pystr :=
  match v with
  | PNone => u "NoneType"
  | PBool _ => u "bool"
  | PInt _ => u "int"
  | PFloat _ => u "float"
  | PStr _ => u "str"
  | PList _ => u "list"
  | PDict _ => u "dict"
  end.

(** [obj[key]] for a [str] key: only a [dict] can be indexed by one. *)
Definition getitem (obj : pyval) (key : pystr) : outcome pyval :=
  match obj with
  | PDict d =>
      match dict_get key d with
      | Some v => Ret v
      | None => Raise (KeyError key)
      end
  | PList _ => Raise (TypeError (u "list indices must be integers or slices, not str"))
  | PStr _ => Raise (TypeError (u "string indices must be integers, not 'str'"))
  | _ => Raise (TypeError (u "'" ++ type_name_of obj ++ u "' object is not subscriptable"))
  end.

(** [obj.get(key, default)]: only a [dict] has the method. *)
Definition py_get (obj : pyval) (key : pystr) (default : pyval) : outcome pyval :=
  match obj with
  | PDict d =>
      match dict_get key d with
      | Some v => Ret v
      | None => Ret default
      end
  | _ => Raise (AttributeError (u "'" ++ type_name_of obj ++ u "' object has no attribute 'get'"))
  end.

(** ** The world *)

Record world := World {
  clock : nat -> pystr;           (* datetime.utcnow().isoformat(), read by read *)
  ticks : nat;                    (* clock reads so far *)
  stdout : list pystr;            (* the lines printed *)
  files : gmap pystr pystr;       (* the text files that exist *)
  write_error : pystr -> pystr -> option exn;
                                  (* what appending this text to this path raises *)
  environ : gmap pystr pystr;     (* os.environ *)
  urandom : nat -> N;             (* os.urandom(16), draw by draw *)
  draws : nat;                    (* draws so far *)
  table_service : pystr -> pyval -> outcome pyval;
                                  (* what put_item returns or raises *)
  puts : list (pystr * pyval)     (* the items submitted, with their table *)
}.

(** A computation reads and changes the world and returns or raises. *)
Definition M (A : Type) : Type := world -> outcome A * world.

Definition ret {A} (a : A) : M A := fun w => (Ret a, w).

Definition raise {A} (e : exn) : M A := fun w => (Raise e, w).

Definition bind {A B} (m : M A) (k : A -> M B) : M B :=
  fun w =>
    match m w with
    | (Ret a, w') => k a w'
    | (Raise e, w') => (Raise e, w')
    end.

(** [try: m  except Exception as e: h e] *)
Definition try_except {A} (m : M A) (h : exn -> M A) : M A :=
  fun w =>
    match m w with
    | (Ret a, w') => (Ret a, w')
    | (Raise e, w') => h e w'
    end.

Notation "x <~ m ;; k" := (bind m (fun x => k))
  (at level 100, m at next level, right associativity).
Notation "m ;;; k" := (bind m (fun _ => k))
  (at level 100, right associativity).

Definition tick (w : world) : world :=
  {| clock := clock w; ticks := S (ticks w); stdout := stdout w; files := files w;
     write_error := write_error w; environ := environ w; urandom := urandom w;
     draws := draws w; table_service := table_service w; puts := puts w |}.

Definition with_stdout (out : list pystr) (w : world) : world :=
  {| clock := clock w; ticks := ticks w; stdout := out; files := files w;
     write_error := write_error w; environ := environ w; urandom := urandom w;
     draws := draws w; table_service := table_service w; puts := puts w |}.

Definition with_files (fs : gmap pystr pystr) (w : world) : world :=
  {| clock := clock w; ticks := ticks w; stdout := stdout w; files := fs;
     write_error := write_error w; environ := environ w; urandom := urandom w;
     draws := draws w; table_service := table_service w; puts := puts w |}.

Definition draw (w : world) : world :=
  {| clock := clock w; ticks := ticks w; stdout := stdout w; files := files w;
     write_error := write_error w; environ := environ w; urandom := urandom w;
     draws := S (draws w); table_service := table_service w; puts := puts w |}.

Definition with_puts (ps : list (pystr * pyval)) (w : world) : world :=
  {| clock := clock w; ticks := ticks w; stdout := stdout w; files := files w;
     write_error := write_error w; environ := environ w; urandom := urandom w;
     draws := draws w; table_service := table_service w; puts := ps |}.

(** [print(s)] *)
Definition print (s : pystr) : M unit :=
  fun w => (Ret tt, with_stdout (stdout w ++ [s]) w).

(** [os.environ.get(name)] *)
Definition environ_get (name : pystr) : M (option pystr) :=
  fun w => (Ret (environ w !! name), w).

(** [with open(path, "a", encoding="utf-8") as f: f.write(text)]: the file is
    created when it is missing; a failure leaves the files as they were. *)
Definition append_text (path text : pystr) : M unit :=
  fun w =>
    match write_error w path text with
    | Some e => (Raise e, w)
    | None =>
        (Ret tt, with_files (<[path := default [] (files w !! path) ++ text]> (files w)) w)
    end.

(** ** The logger *)

Definition LOG_PATH : pystr := u "/tmp/crear_pelicula.logl".

Definition iso_now : M pystr :=
  fun w => (Ret (clock w (ticks w) ++ u "Z"), tick w).

Definition make_log_entry (tipo : pystr) (datos : pydict) : M pyval :=
  ts <~ iso_now ;;
  ret (PDict [(u "tipo", PStr tipo);
              (u "log_datos", PDict (dict_update [(u "timestamp", PStr ts)] datos))]).

Definition print_log (entry : pyval) : M unit :=
  print (json_dumps entry).

Definition append_log_file (entry : pyval) (path : pystr) : M unit :=
  try_except
    (append_text path (json_dumps entry ++ [10]))
    (fun _ =>
       warn <~ make_log_entry (u "ERROR")
                 [(u "action", PStr (u "append_log_file"));
                  (u "message", PStr (u "failed to append log file"));
                  (u "error", PStr (u "could not write to " ++ path))] ;;
       print (json_dumps warn)).

(** ** Queries over loaded entries *)

(** [e.get("tipo") == tipo] for a [str] [tipo]: the field is there and holds
    that string. *)
Definition tipo_is (tipo : pystr) (e : pydict) : bool :=
  match dict_get (u "tipo") e with
  | Some (PStr s) => pystr_eqb s tipo
  | _ => false
  end.

Definition filter_by_tipo (entries : list pydict) (tipo : pystr) : list pydict :=
  List.filter (tipo_is tipo) entries.

(** How a value behaves as a dictionary key: [None], a number ([True] is [1]
    and [False] is [0]) or a string. *)
Inductive hash_key :=
| KNone
| KNum (z : Z)
| KStr (s : pystr).

Global Instance hash_key_eq_dec : EqDecision hash_key.
Proof. solve_decision. Defined.

(** A [dict] of counters: each key as first inserted, with what it hashes as. *)
Abbreviation counters := (list (pyval * hash_key * Z)).

(** What counting returns: the counters; [TypeError] for a key that cannot be
    hashed (a list or a dict); or no answer for a float key, whose equality
    with a number key needs the float's value, which is not modelled. *)
Inductive count_result :=
| Counted (counts : counters)
| Unhashable
| FloatKey.

Definition key_of (v : pyval) : option (option hash_key) :=
  match v with
  | PNone => Some (Some KNone)
  | PBool b => Some (Some (KNum (if b then 1 else 0)))
  | PInt z => Some (Some (KNum z))
  | PStr s => Some (Some (KStr s))
  | PFloat _ => None
  | PList _ | PDict _ => Some None
  end.

(** [counts[t] = counts.get(t, 0) + 1] for a key hashing as [k]. *)
Fixpoint bump (t : pyval) (k : hash_key) (counts : counters) : counters :=
  match counts with
  | [] => [(t, k, 1%Z)]
  | (t', k', n) :: rest =>
      if bool_decide (k' = k) then (t', k', (n + 1)%Z) :: rest
      else (t', k', n) :: bump t k rest
  end.

Fixpoint count_from (entries : list pydict) (counts : counters) : count_result :=
  match entries with
  | [] => Counted counts
  | e :: rest =>
      let t := default (PStr (u "UNKNOWN")) (dict_get (u "tipo") e) in
      match key_of t with
      | Some (Some k) => count_from rest (bump t k counts)
      | Some None => Unhashable
      | None => FloatKey
      end
  end.

Definition count_by_tipo (entries : list pydict) : count_result :=
  count_from entries [].




(** ** Queries over entries as they are loaded

    [load_logs] returns whatever the lines decode to, so an entry can be any
    value.  Only a [dict] has the method [get]: on any other entry
    [e.get("tipo")] raises [AttributeError]. *)


Module Loaded.

(** [[e for e in entries if e.get("tipo") == tipo]] *)
Fixpoint filter_by_tipo (entries : list pyval) (tipo : pystr) : outcome (list pyval) :=
  match entries with
  | [] => Ret []
  | e :: rest =>
      match py_get e (u "tipo") PNone with
      | Raise x => Raise x
      | Ret t =>
          match filter_by_tipo rest tipo with
          | Raise x => Raise x
          | Ret kept =>
              Ret (match t with
                   | PStr s => if pystr_eqb s tipo then e :: kept else kept
                   | _ => kept
                   end)
          end
      end
  end.

(** The loop of [count_by_tipo], [counts] holding the counters so far; as
    above, [Unhashable] stands for the [TypeError] of a key that cannot be
    hashed. *)
Fixpoint count_from (entries : list pyval) (counts : counters) : outcome count_result :=
  match entries with
  | [] => Ret (Counted counts)
  | e :: rest =>
      match py_get e (u "tipo") (PStr (u "UNKNOWN")) with
      | Raise x => Raise x
      | Ret t =>
          match key_of t with
          | Some (Some k) => count_from rest (bump t k counts)
          | Some None => Ret Unhashable
          | None => Ret FloatKey
          end
      end
  end.

Definition count_by_tipo (entries : list pyval) : outcome count_result :=
  count_from entries [].

End Loaded.

(** ** [str(uuid.uuid4())] *)

(** The 128 bits of one draw with the variant and version fields set. *)
Definition uuid4_int (r : N) : N :=
  N.lor (N.ldiff (N.lor (N.ldiff (r mod 2 ^ 128) (N.shiftl 49152 48)) (N.shiftl 32768 48))
           (N.shiftl 61440 64))
        (N.shiftl 4 76).

(** The [k] low hexadecimal digits of [n], most significant first. *)
Fixpoint hex_digits (k : nat) (n : N) : pystr :=
  match k with
  | O => []
  | S k' => hex_digits k' (n / 16) ++ [hex_digit (n mod 16)]
  end.

Definition uuid_str (n : N) : pystr :=
  let h := hex_digits 32 n in
  take 8 h ++ u "-" ++ take 4 (drop 8 h) ++ u "-" ++ take 4 (drop 12 h) ++ u "-"
  ++ take 4 (drop 16 h) ++ u "-" ++ drop 20 h.

Definition uuid4 : M pystr :=
  fun w => (Ret (uuid_str (uuid4_int (urandom w (draws w)))), draw w).

(** A lowercase hexadecimal digit. *)
Definition is_hex (c : N) : bool := is_digit c || ((97 <=? c) && (c <=? 102)).

(** The text of a version 4 UUID: groups of 8, 4, 4, 4 and 12 lowercase
    hexadecimal digits joined by hyphens, the third group starting with [4]
    (code point 52) and the fourth with [8], [9], [a] or [b] (56, 57, 97,
    98). *)
Definition is_uuid4_text (s : pystr) : bool :=
  let groups :=
    [take 8 s; take 4 (drop 9 s); take 4 (drop 14 s); take 4 (drop 19 s); drop 24 s] in
  pystr_eqb s (join (u "-") groups)
  && forallb (fun g => forallb is_hex g) groups
  && forallb (fun gn => Nat.eqb (length (fst gn)) (snd gn))
       (zip groups [8; 4; 4; 4; 12]%nat)
  && match s !! 14%nat, s !! 19%nat with
     | Some v, Some r => (v =? 52) && ((r =? 56) || (r =? 57) || (r =? 97) || (r =? 98))
     | _, _ => false
     end.

(** [table.put_item(Item=item)] on the table named [name]. *)
Definition put_item (name : pystr) (item : pyval) : M pyval :=
  fun w => (table_service w name item, with_puts (puts w ++ [(name, item)]) w).

(** ** The log reader and the handler *)

Record response := Response {
  statusCode : Z;
  body : pystr
}.

Section Handler.

Variable float_of_literal : pystr -> pystr.



(** The body of the request as the handler validates it. *)
Definition normalize (event : pyval) : pyval :=
  match py_get event (u "body") (PDict []) with
  | Raise _ => PDict []
  | Ret (PStr s) =>
      match json_loads float_of_literal s with
      | Some v => v
      | None => PDict []
      end
  | Ret b => b
  end.

(** [body['tenant_id']] and then [body['pelicula_datos']]. *)
Definition required_fields (b : pyval) : outcome (pyval * pyval) :=
  match getitem b (u "tenant_id") with
  | Raise e => Raise e
  | Ret tenant_id =>
      match getitem b (u "pelicula_datos") with
      | Raise e => Raise e
      | Ret pelicula_datos => Ret (tenant_id, pelicula_datos)
      end
  end.

(** Python's [not nombre_tabla] for [os.environ.get("TABLE_NAME")]. *)
Definition falsy (name : option pystr) : bool :=
  match name with
  | None | Some [] => true
  | Some (_ :: _) => false
  end.

(** [getattr(response, "get", lambda k, d=None: None)("ResponseMetadata", None)] *)
Definition response_metadata (resp : pyval) : pyval :=
  match py_get resp (u "ResponseMetadata") PNone with
  | Ret v => v
  | Raise _ => PNone
  end.

Definition lambda_handler (event context : pyval) : M response :=
  let b := normalize event in
  match required_fields b with
  | Raise (KeyError k) =>
      let e := KeyError k in
      entry <~ make_log_entry (u "ERROR")
                 [(u "action", PStr (u "parse_input"));
                  (u "message", PStr (u "missing required field in body"));
                  (u "missing_field", PStr (str_exn e));
                  (u "body", b)] ;;
      print_log entry ;;;
      append_log_file entry LOG_PATH ;;;
      ret {| statusCode := 400;
             body := json_dumps
               (PDict [(u "error", PStr (u "missing required field: " ++ str_exn e))]) |}
  | Raise e => raise e
  | Ret (tenant_id, pelicula_datos) =>
      nombre_tabla <~ environ_get (u "TABLE_NAME") ;;
      if falsy nombre_tabla then
        entry <~ make_log_entry (u "ERROR")
                   [(u "action", PStr (u "env_check"));
                    (u "message", PStr (u "TABLE_NAME not set in environment"))] ;;
        print_log entry ;;;
        append_log_file entry LOG_PATH ;;;
        ret {| statusCode := 500;
               body := json_dumps
                 (PDict [(u "error",
                          PStr (u "server configuration error: TABLE_NAME missing"))]) |}
      else
        uuidv4 <~ uuid4 ;;
        let pelicula :=
          PDict [(u "tenant_id", tenant_id);
                 (u "uuid", PStr uuidv4);
                 (u "pelicula_datos", pelicula_datos)] in
        try_except
          (resp <~ put_item (default [] nombre_tabla) pelicula ;;
           entry <~ make_log_entry (u "INFO")
                      [(u "action", PStr (u "create_movie"));
                       (u "status", PStr (u "success"));
                       (u "pelicula", pelicula);
                       (u "dynamodb_response_metadata", response_metadata resp)] ;;
           print_log entry ;;;
           append_log_file entry LOG_PATH ;;;
           ret {| statusCode := 200;
                  body := json_dumps
                    (PDict [(u "pelicula", pelicula);
                            (u "dynamodb_response", resp)]) |})
          (fun e =>
             match e with
             | ClientError msg =>
                 entry <~ make_log_entry (u "ERROR")
                            [(u "action", PStr (u "create_movie"));
                             (u "status", PStr (u "dynamodb_failed"));
                             (u "error_message", PStr (str_exn e));
                             (u "pelicula", pelicula)] ;;
                 print_log entry ;;;
                 append_log_file entry LOG_PATH ;;;
                 ret {| statusCode := 502;
                        body := json_dumps
                          (PDict [(u "error", PStr (u "dynamodb error"));
                                  (u "details", PStr (str_exn e))]) |}
             | _ =>
                 entry <~ make_log_entry (u "ERROR")
                            [(u "action", PStr (u "create_movie"));
                             (u "status", PStr (u "failed_unexpected"));
                             (u "error_type", PStr (class_name e));
                             (u "error_message", PStr (str_exn e));
                             (u "pelicula", pelicula)] ;;
                 print_log entry ;;;
                 append_log_file entry LOG_PATH ;;;
                 ret {| statusCode := 500;
                        body := json_dumps
                          (PDict [(u "error", PStr (u "internal server error"));
                                  (u "details", PStr (str_exn e))]) |}
             end)
  end.

End Handler.

(** ** What the handler answers and logs *)

Definition log_entry (tipo ts : pystr) (fields : pydict) : pyval :=
  PDict [(u "tipo", PStr tipo); (u "log_datos", PDict ((u "timestamp", PStr ts) :: fields))].

Definition now (w : world) : pystr := clock w (ticks w) ++ u "Z".

Definition quoted (name : pystr) : pystr := u "'" ++ name ++ u "'".

Definition missing_entry (ts name : pystr) (b : pyval) : pyval :=
  log_entry (u "ERROR") ts
    [(u "action", PStr (u "parse_input"));
     (u "message", PStr (u "missing required field in body"));
     (u "missing_field", PStr (quoted name));
     (u "body", b)].

Definition append_failed_entry (ts path : pystr) : pyval :=
  log_entry (u "ERROR") ts
    [(u "action", PStr (u "append_log_file"));
     (u "message", PStr (u "failed to append log file"));
     (u "error", PStr (u "could not write to " ++ path))].

Definition bad_request (name : pystr) : response :=
  {| statusCode := 400;
     body := json_dumps (PDict [(u "error", PStr (u "missing required field: " ++ quoted name))]) |}.

(** What logging [entry] does to the world [w], [entry] having been built at the clock read before. *)
Definition logged (entry : pyval) (w : world) : world :=
  let w1 := with_stdout (stdout w ++ [json_dumps entry]) w in
  let line := json_dumps entry ++ [10] in
  match write_error w LOG_PATH line with
  | None => with_files (<[LOG_PATH := default [] (files w !! LOG_PATH) ++ line]> (files w)) w1
  | Some _ =>
      with_stdout (stdout w1 ++ [json_dumps (append_failed_entry (now w1) LOG_PATH)]) (tick w1)
  end.

Definition entry_at (ts tipo : pystr) (datos : pydict) : pyval :=
  PDict [(u "tipo", PStr tipo);
         (u "log_datos", PDict (dict_update [(u "timestamp", PStr ts)] datos))].

Definition config_entry (ts : pystr) : pyval :=
  log_entry (u "ERROR") ts
    [(u "action", PStr (u "env_check"));
     (u "message", PStr (u "TABLE_NAME not set in environment"))].

Definition config_error : response :=
  {| statusCode := 500;
     body := json_dumps
       (PDict [(u "error", PStr (u "server configuration error: TABLE_NAME missing"))]) |}.

Definition movie (tenant_id : pyval) (id : pystr) (pelicula_datos : pyval) : pyval :=
  PDict [(u "tenant_id", tenant_id); (u "uuid", PStr id); (u "pelicula_datos", pelicula_datos)].

Definition next_uuid (w : world) : pystr := uuid_str (uuid4_int (urandom w (draws w))).

Definition created (pelicula resp : pyval) : response :=
  {| statusCode := 200;
     body := json_dumps (PDict [(u "pelicula", pelicula); (u "dynamodb_response", resp)]) |}.

Definition created_entry (ts : pystr) (pelicula resp : pyval) : pyval :=
  log_entry (u "INFO") ts
    [(u "action", PStr (u "create_movie"));
     (u "status", PStr (u "success"));
     (u "pelicula", pelicula);
     (u "dynamodb_response_metadata", response_metadata resp)].

Definition store_error (msg : pystr) : response :=
  {| statusCode := 502;
     body := json_dumps (PDict [(u "error", PStr (u "dynamodb error")); (u "details", PStr msg)]) |}.

Definition store_failed_entry (ts msg : pystr) (pelicula : pyval) : pyval :=
  log_entry (u "ERROR") ts
    [(u "action", PStr (u "create_movie"));
     (u "status", PStr (u "dynamodb_failed"));
     (u "error_message", PStr msg);
     (u "pelicula", pelicula)].

Definition internal_error (msg : pystr) : response :=
  {| statusCode := 500;
     body := json_dumps
       (PDict [(u "error", PStr (u "internal server error")); (u "details", PStr msg)]) |}.

Definition unexpected_entry (ts : pystr) (e : exn) (pelicula : pyval) : pyval :=
  log_entry (u "ERROR") ts
    [(u "action", PStr (u "create_movie"));
     (u "status", PStr (u "failed_unexpected"));
     (u "error_type", PStr (class_name e));
     (u "error_message", PStr (str_exn e));
     (u "pelicula", pelicula)].

(** ** Categories of entries *)

(** The key under which [count_by_tipo] counts an entry. *)
Definition counted_as (e : pydict) : pyval :=
  default (PStr (u "UNKNOWN")) (dict_get (u "tipo") e).




(** ** Log files, line by line *)

(** A line break: a line feed or a carriage return. *)
Definition is_break (c : N) : bool := (c =? 10) || (c =? 13).

(** Text in which every line is ended: empty, or ending in a line break. *)
Definition terminated (content : pystr) : bool :=
  match last content with
  | None => true
  | Some c => is_break c
  end.

(** A log file that [append_log_file] can extend by whole lines: missing, or
    with every line ended. *)
Definition appendable (file : option pystr) : bool :=
  match file with
  | None => true
  | Some content => terminated content
  end.

(** No line break inside. *)
Definition one_line (s : pystr) : Prop := Forall (fun c => is_break c = false) s.

(** The characters of a number literal. *)
Definition numchar (c : N) : bool :=
  is_digit c || (c =? 45) || (c =? 43) || (c =? 46) || (c =? 101) || (c =? 69).



(** The world after [k] more clock reads and the lines [out] printed. *)
Definition advance (k : nat) (out : list pystr) (w : world) : world :=
  {| clock := clock w; ticks := ticks w + k; stdout := stdout w ++ out; files := files w;
     write_error := write_error w; environ := environ w; urandom := urandom w;
     draws := draws w; table_service := table_service w; puts := puts w |}.


(** The text of a log file that holds exactly these entries, one per line,
    as [append_log_file] writes them. *)
Definition log_text (entries : list pyval) : pystr :=
  flat_map (fun e => json_dumps e ++ [10]) entries.

Section ReaderNotions.

Variable float_of_literal : pystr -> pystr.




End ReaderNotions.


(** ** A sample run

    A world and requests to evaluate the handler on: an empty file system
    that can be written, a table named [peliculas] whose service accepts every
    item, a clock, and a random source. *)

(** A float conversion for the examples: the literal as it is written. *)
Definition literal_float (lit : pystr) : pystr := lit.

Definition sample_response : pyval :=
  PDict [(u "ResponseMetadata", PDict [(u "HTTPStatusCode", PInt 200)])].

Definition sample_world : world :=
  {| clock := fun n => u "2024-01-01T00:00:0" ++ repr_N (N.of_nat n);
     ticks := 0;
     stdout := [];
     files := ∅;
     write_error := fun _ _ => None;
     environ := {[ u "TABLE_NAME" := u "peliculas" ]};
     urandom := fun n => 1234567890123456789012345678901234567 * N.of_nat (S n);
     draws := 0;
     table_service := fun _ _ => Ret sample_response;
     puts := [] |}.



(** The body of the request [tenant_id: t1, pelicula_datos: title: X]. *)
Definition sample_body : pydict :=
  [(u "tenant_id", PStr (u "t1"));
   (u "pelicula_datos", PDict [(u "title", PStr (u "X"))])].

Definition sample_event : pyval := PDict [(u "body", PDict sample_body)].

(** A request whose body is a string that is not JSON. *)
Definition garbled_event : pyval := PDict [(u "body", PStr (u "{not valid json"))].


(** The fields of a log entry, and the entry built from them at the first
    clock read of the sample world. *)
Definition sample_datos : pydict :=
  [(u "action", PStr (u "create_movie"));
   (u "attempt", PInt 3);
   (u "tags", PList [PStr (u "a"); PNone; PBool true]);
   (u "note", PStr (u "line one" ++ [10] ++ u "line two"))].

Definition sample_entry : pyval := entry_at (now sample_world) (u "INFO") sample_datos.





(** The sample request with one more member in its body. *)
Definition verbose_event : pyval :=
  PDict [(u "body", PDict (sample_body ++ [(u "comment", PStr (u "ignored"))]))].


(** Two entries and a world whose log file holds them. *)
Definition journal : list pyval :=
  [sample_entry; entry_at (u "2024-01-01T00:00:01Z") (u "ERROR") [(u "action", PStr (u "env_check"))]].

Definition journal_world : world :=
  with_files {[ LOG_PATH := log_text journal ]} sample_world.


(** An entry whose category is a list. *)
Definition odd_entry : pydict := [(u "tipo", PList [PStr (u "ERROR")])].




(** * Facts

    ** Text and dictionaries *)

Lemma pystr_eqb_eq a b : pystr_eqb a b = true <-> a = b.
Proof.
  revert b. induction a as [|c a IH]; intros [|d b]; simpl; try (split; congruence).
  rewrite andb_true_iff, N.eqb_eq, IH. split; [intros [-> ->]; reflexivity | intros [= -> ->]; auto].
Qed.

Lemma pystr_eqb_refl a : pystr_eqb a a = true.
Proof. apply pystr_eqb_eq. reflexivity. Qed.

Lemma pystr_eqb_neq a b : a <> b -> pystr_eqb a b = false.
Proof. intros H. destruct (pystr_eqb a b) eqn:E; [apply pystr_eqb_eq in E; contradiction | reflexivity]. Qed.





Lemma uint_chars_digits d : forallb is_digit (uint_chars d) = true.
Proof. induction d; simpl; auto. Qed.

Lemma closes_cases rest :
  closes rest = true ->
  rest = [] \/ exists c t, rest = c :: t /\ (c = 44 \/ c = 93 \/ c = 125).
Proof.
  destruct rest as [|c t]; [auto|]. simpl. intros H. right. exists c, t. split; [reflexivity|].
  rewrite !orb_true_iff, !N.eqb_eq in H. tauto.
Qed.

Lemma span_digits_app ds rest :
  forallb is_digit ds = true -> closes rest = true ->
  span_digits (ds ++ rest) = (ds, rest).
Proof.
  intros Hd Hc. induction ds as [|c ds IH].
  - simpl. destruct (closes_cases _ Hc) as [-> | (c & t & -> & [-> | [-> | ->]])]; reflexivity.
  - simpl in Hd. apply andb_true_iff in Hd as [Hc1 Hd]. simpl. rewrite Hc1, (IH Hd). reflexivity.
Qed.








Section NumberLocality.
Variable float_of_literal : pystr -> pystr.

End NumberLocality.

Lemma nzhead_shape d : Decimal.nzhead d = Decimal.Nil \/ nz_lead (Decimal.nzhead d).
Proof. induction d; simpl; auto. Qed.

Lemma to_uint_shape n :
  N.to_uint n = Decimal.D0 Decimal.Nil \/ nz_lead (N.to_uint n).
Proof.
  rewrite <- (Unsigned.of_to n) at 1 2. rewrite Unsigned.to_of.
  unfold Decimal.unorm.
  destruct (nzhead_shape (N.to_uint n)) as [-> | H]; [auto|].
  destruct (Decimal.nzhead (N.to_uint n)); simpl in H; try contradiction; right; exact I.
Qed.

Lemma match_natural_uint d :
  d = Decimal.D0 Decimal.Nil \/ nz_lead d ->
  match_natural (uint_chars d) = Some (uint_chars d, []).
Proof.
  intros [-> | H]; [reflexivity|].
  destruct d; simpl in H; try contradiction; simpl;
    rewrite <- (app_nil_r (uint_chars d)) at 1;
    rewrite (span_digits_app _ [] (uint_chars_digits d) eq_refl); reflexivity.
Qed.

Lemma uint_chars_not_minus {A} d (f g : pystr -> A) :
  match uint_chars d with
  | 45 :: ds => f ds
  | _ => g (uint_chars d)
  end = g (uint_chars d).
Proof. destruct d; reflexivity. Qed.


Lemma match_integer_repr z : match_integer (repr_int z) = Some (repr_int z, []).
Proof.
  unfold match_integer, repr_int, repr_N. destruct z as [|p|p].
  - reflexivity.
  - etransitivity; [apply (uint_chars_not_minus (N.to_uint (N.pos p))
      (fun t => match match_natural t with Some (ds, r) => Some (45 :: ds, r) | None => None end)
      match_natural)|].
    apply match_natural_uint, to_uint_shape.
  - cbv iota beta. rewrite (match_natural_uint _ (to_uint_shape (N.pos p))). reflexivity.
Qed.

Section NumberRoundTrip.
Variable float_of_literal : pystr -> pystr.


Lemma match_integer_head s i r :
  match_integer s = Some (i, r) ->
  exists c t, s = c :: t /\ (c = 45 \/ is_digit c = true).
Proof.
  unfold match_integer. destruct s as [|c t]; [discriminate|].
  intros H. exists c, t. split; [reflexivity|].
  destruct (N.eq_dec c 45) as [-> | Hne]; [auto|]. right.
  assert (Hn : match_natural (c :: t) = Some (i, r)).
  { destruct c as [|p]; [exact H|].
    do 6 (destruct p as [p|p|]; try exact H). contradiction. }
  simpl in Hn. destruct (c =? 48) eqn:E; [apply N.eqb_eq in E; subst; reflexivity|].
  destruct (is_digit c); [reflexivity | discriminate].
Qed.


End NumberRoundTrip.

Lemma keys_unique_NoDup ks : keys_unique ks = true <-> NoDup ks.
Proof.
  induction ks as [|k ks IH]; simpl.
  - split; [constructor | reflexivity].
  - rewrite andb_true_iff, negb_true_iff, IH, NoDup_cons. 
    assert (existsb (pystr_eqb k) ks = false <-> k ∉ ks) as ->; [|tauto].
    rewrite <- not_true_iff_false, existsb_exists. split.
    + intros H Hin. apply H. exists k. split; [apply list_elem_of_In, Hin | apply pystr_eqb_refl].
    + intros H (x & Hin & Heq). apply pystr_eqb_eq in Heq. subst. apply H, list_elem_of_In, Hin.
Qed.




Lemma starts_value_facts c :
  starts_value c ->
  is_ws c = false /\ (c =? 93) = false /\ (c =? 65279) = false /\ is_space c = false.
Proof.
  unfold starts_value, is_digit. intros H.
  assert (Hr : 34 <= c <= 123 /\ c <> 93).
  { rewrite andb_true_iff, !N.leb_le in H. lia. }
  destruct Hr as [Hr Hne]. unfold is_ws, is_space.
  repeat split.
  - rewrite !orb_false_iff, !N.eqb_neq. lia.
  - apply N.eqb_neq. lia.
  - apply N.eqb_neq. lia.
  - rewrite !orb_false_iff, !andb_false_iff, !N.eqb_neq, !N.leb_gt. lia.
Qed.


Section JsonRoundTrip.
Variable float_of_literal : pystr -> pystr.

Lemma float_ok_cases r :
  float_ok float_of_literal r = true ->
  r = u "NaN" \/ r = u "Infinity" \/ r = u "-Infinity"
  \/ match_number float_of_literal r = Some (PFloat r, []).
Proof.
  unfold float_ok. rewrite !orb_true_iff, !pystr_eqb_eq.
  intros [[[H | H] | H] | H]; auto.
  do 3 right.
  destruct (match_number float_of_literal r) as [[[] [|]]|]; try discriminate.
  apply pystr_eqb_eq in H. subst. reflexivity.
Qed.

Lemma match_number_head s res :
  match_number float_of_literal s = Some res -> exists c t, s = c :: t /\ starts_value c.
Proof.
  unfold match_number. destruct (match_integer s) as [[i r]|] eqn:E; [|discriminate].
  intros _. destruct (match_integer_head _ _ _ E) as (c & t & -> & H).
  exists c, t. split; [reflexivity|]. unfold starts_value. tauto.
Qed.

Lemma dumps_head v :
  well_formed float_of_literal v = true -> exists c t, json_dumps v = c :: t /\ starts_value c.
Proof.
  unfold starts_value. destruct v as [|[]|z|r|s|l|d]; simpl; intros H.
  - eexists _, _. split; [reflexivity | tauto].
  - eexists _, _. split; [reflexivity | tauto].
  - eexists _, _. split; [reflexivity | tauto].
  - destruct (match_integer_head _ _ _ (match_integer_repr z)) as (c & t & -> & Hc).
    exists c, t. split; [reflexivity | tauto].
  - destruct (float_ok_cases _ H) as [-> | [-> | [-> | Hm]]].
    + eexists _, _. split; [reflexivity | tauto].
    + eexists _, _. split; [reflexivity | tauto].
    + eexists _, _. split; [reflexivity | tauto].
    + apply match_number_head in Hm. exact Hm.
  - eexists _, _. split; [reflexivity | tauto].
  - eexists _, _. split; [reflexivity | tauto].
  - eexists _, _. split; [reflexivity | tauto].
Qed.

















End JsonRoundTrip.

(** ** The handler *)

Lemma make_log_entry_run tipo datos w :
  make_log_entry tipo datos w = (Ret (entry_at (now w) tipo datos), tick w).
Proof. reflexivity. Qed.

Lemma append_log_file_run entry path w :
  append_log_file entry path w =
  match write_error w path (json_dumps entry ++ [10]) with
  | None =>
      (Ret tt, with_files (<[path := default [] (files w !! path) ++ json_dumps entry ++ [10]]> (files w)) w)
  | Some _ =>
      (Ret tt, with_stdout (stdout w ++ [json_dumps (append_failed_entry (now w) path)]) (tick w))
  end.
Proof.
  unfold append_log_file, try_except, append_text.
  destruct (write_error w path (json_dumps entry ++ [10])); reflexivity.
Qed.

Lemma log_and_return {A} tipo datos (r : A) w :
  (entry <~ make_log_entry tipo datos ;;
   print_log entry ;;;
   append_log_file entry LOG_PATH ;;;
   ret r) w
  = (Ret r, logged (entry_at (now w) tipo datos) (tick w)).
Proof.
  unfold bind at 1. rewrite make_log_entry_run. cbv beta iota.
  unfold bind at 1. unfold print_log, print. cbv beta iota.
  unfold bind at 1. rewrite append_log_file_run. unfold logged.
  cbn [write_error with_stdout files stdout].
  destruct (write_error (tick w) LOG_PATH _); reflexivity.
Qed.

Lemma length_hex_digits k n : length (hex_digits k n) = k.
Proof.
  revert n. induction k as [|k IH]; intros n; [reflexivity|].
  simpl. rewrite length_app, IH. simpl. lia.
Qed.

Lemma length_uuid_str n : length (uuid_str n) = 36%nat.
Proof.
  unfold uuid_str. cbv zeta.
  rewrite !length_app, !length_take, !length_drop, !length_hex_digits. reflexivity.
Qed.

Lemma uuid_str_nonempty n : uuid_str n <> [].
Proof. intros H. apply (f_equal length) in H. rewrite length_uuid_str in H. discriminate. Qed.








Section HandlerFacts.
Variable float_of_literal : pystr -> pystr.

Lemma handler_missing event context w d name :
  normalize float_of_literal event = PDict d ->
  required_fields (PDict d) = Raise (KeyError name) ->
  lambda_handler float_of_literal event context w
  = (Ret (bad_request name), logged (missing_entry (now w) name (PDict d)) (tick w)).
Proof.
  intros Hn Hr. unfold lambda_handler. rewrite Hn, Hr.
  cbv zeta. rewrite log_and_return. reflexivity.
Qed.

Lemma required_fields_dict d :
  required_fields (PDict d) =
  match dict_get (u "tenant_id") d with
  | None => Raise (KeyError (u "tenant_id"))
  | Some t =>
      match dict_get (u "pelicula_datos") d with
      | None => Raise (KeyError (u "pelicula_datos"))
      | Some p => Ret (t, p)
      end
  end.
Proof.
  unfold required_fields, getitem.
  destruct (dict_get (u "tenant_id") d); [|reflexivity].
  destruct (dict_get (u "pelicula_datos") d); reflexivity.
Qed.



Lemma handler_fields event context w d t p :
  normalize float_of_literal event = PDict d ->
  dict_get (u "tenant_id") d = Some t ->
  dict_get (u "pelicula_datos") d = Some p ->
  lambda_handler float_of_literal event context w =
  if falsy (environ w !! u "TABLE_NAME") then
    (Ret config_error, logged (config_entry (now w)) (tick w))
  else
    let name := default [] (environ w !! u "TABLE_NAME") in
    let pelicula := movie t (next_uuid w) p in
    let w1 := with_puts (puts w ++ [(name, pelicula)]) (draw w) in
    match table_service w name pelicula with
    | Ret resp =>
        (Ret (created pelicula resp), logged (created_entry (now w1) pelicula resp) (tick w1))
    | Raise (ClientError msg) =>
        (Ret (store_error msg), logged (store_failed_entry (now w1) msg pelicula) (tick w1))
    | Raise e =>
        (Ret (internal_error (str_exn e)), logged (unexpected_entry (now w1) e pelicula) (tick w1))
    end.
Proof.
  intros Hn Ht Hp. unfold lambda_handler at 1. rewrite Hn, required_fields_dict, Ht, Hp.
  cbv zeta. unfold bind at 1. unfold environ_get. cbv beta iota.
  destruct (falsy _) eqn:Ef.
  - rewrite log_and_return. reflexivity.
  - unfold bind at 1. unfold uuid4. cbv beta iota.
    unfold try_except. unfold bind at 1. unfold put_item. cbn [table_service draw].
    fold (next_uuid w). fold (movie t (next_uuid w) p).
    destruct (table_service w _ _) as [resp | e] eqn:Ets.
    + rewrite log_and_return. reflexivity.
    + destruct e; rewrite log_and_return; reflexivity.
Qed.

Lemma logged_frame entry w :
  environ (logged entry w) = environ w /\ urandom (logged entry w) = urandom w
  /\ draws (logged entry w) = draws w /\ table_service (logged entry w) = table_service w
  /\ puts (logged entry w) = puts w /\ clock (logged entry w) = clock w.
Proof. unfold logged. destruct (write_error w LOG_PATH _); repeat split; reflexivity. Qed.


(** C4: a body that is a string [json.loads] refuses is taken for the empty
    object, so the answer is the 400 naming [tenant_id], and nothing of the
    decoding error reaches the caller. *)
Theorem unparseable_body_rejected event context w fields s :
  event = PDict fields ->
  dict_get (u "body") fields = Some (PStr s) ->
  json_loads float_of_literal s = None ->
  normalize float_of_literal event = PDict [] /\
  lambda_handler float_of_literal event context w
  = (Ret (bad_request (u "tenant_id")),
     logged (missing_entry (now w) (u "tenant_id") (PDict [])) (tick w)).
Proof.
  intros -> Hb Hl.
  assert (Hn : normalize float_of_literal (PDict fields) = PDict []).
  { unfold normalize, py_get. rewrite Hb, Hl. reflexivity. }
  split; [exact Hn|]. apply (handler_missing _ _ _ _ _ Hn). reflexivity.
Qed.


(** C5: the handler does not always return: a body that decodes to a list
    makes [body['tenant_id']] raise [TypeError], which nothing catches. *)
Theorem handler_raises_on_list_body context w :
  fst (lambda_handler float_of_literal (PDict [(u "body", PStr (u "[1, 2]"))]) context w)
  = Raise (TypeError (u "list indices must be integers or slices, not str")).
Proof. reflexivity. Qed.


(** X2: any other body makes the handler raise [TypeError], the world left
    as it was. *)
Theorem other_body_raises event context w :
  (forall d, normalize float_of_literal event <> PDict d) ->
  exists msg, lambda_handler float_of_literal event context w = (Raise (TypeError msg), w).
Proof.
  intros H. unfold lambda_handler.
  destruct (normalize float_of_literal event) eqn:En; try (eexists; reflexivity).
  exfalso. eapply H. reflexivity.
Qed.

End HandlerFacts.

(** ** Queries and the secondary sink *)














Section Containment.
Variable float_of_literal : pystr -> pystr.

Lemma handler_not_dict event context w :
  (forall d, normalize float_of_literal event <> PDict d) ->
  exists e, lambda_handler float_of_literal event context w = (Raise e, w) /\ required_fields (normalize float_of_literal event) = Raise e
    /\ forall k, e <> KeyError k.
Proof.
  intros H. unfold lambda_handler.
  destruct (normalize float_of_literal event) eqn:En; try (eexists; split; [reflexivity|split; [reflexivity|discriminate]]).
  exfalso. eapply H. reflexivity.
Qed.


End Containment.

(** ** Log files *)

Lemma file_lines_nonempty s : s <> [] -> file_lines s <> [].
Proof.
  destruct s as [|c t]; [congruence|]. intros _. simpl.
  destruct (c =? 10); [discriminate|].
  destruct (c =? 13); [destruct t as [|[|p] t]; try discriminate|].
  - do 4 (destruct p as [p|p|]; try discriminate).
  - destruct (file_lines t); discriminate.
Qed.

Lemma terminated_cons c t : t <> [] -> terminated (c :: t) = terminated t.
Proof. destruct t; [congruence|]. reflexivity. Qed.

Lemma file_lines_cr t :
  file_lines (13 :: t) =
  [10] :: file_lines (match t with c :: t' => if c =? 10 then t' else t | [] => [] end).
Proof.
  simpl. destruct t as [|c t]; [reflexivity|].
  destruct (N.eq_dec c 10) as [-> | Hne]; [reflexivity|].
  rewrite (proj2 (N.eqb_neq c 10) Hne).
  destruct c as [|p]; [reflexivity|].
  do 4 (destruct p as [p|p|]; try reflexivity). contradiction.
Qed.

Lemma file_lines_app_aux n a b :
  (length a <= n)%nat -> terminated a = true ->
  (forall t, b <> 10 :: t) ->
  file_lines (a ++ b) = file_lines a ++ file_lines b.
Proof.
  revert a. induction n as [|n IH]; intros a Hlen Ht Hb.
  - destruct a; [reflexivity | simpl in Hlen; lia].
  - destruct a as [|c t]; [reflexivity|]. simpl in Hlen.
    destruct (N.eq_dec c 10) as [-> | Hn10].
    + cbn [app file_lines N.eqb Pos.eqb]. rewrite IH; [reflexivity | lia | | exact Hb].
      destruct t; [reflexivity | rewrite terminated_cons in Ht by discriminate; exact Ht].
    + destruct (N.eq_dec c 13) as [-> | Hn13].
      * change ((13 :: t) ++ b) with (13 :: (t ++ b)). rewrite !file_lines_cr.
        destruct t as [|c' t'].
        -- simpl app. destruct b as [|cb tb]; [reflexivity|].
           destruct (N.eq_dec cb 10) as [-> | Hcb]; [exfalso; eapply Hb; reflexivity|].
           rewrite (proj2 (N.eqb_neq cb 10) Hcb). reflexivity.
        -- rewrite terminated_cons in Ht by discriminate.
           cbn [app]. destruct (c' =? 10) eqn:E10.
           ++ rewrite IH; [reflexivity | simpl in Hlen; lia | | exact Hb].
              destruct t'; [reflexivity | rewrite terminated_cons in Ht by discriminate; exact Ht].
           ++ change (c' :: t' ++ b) with ((c' :: t') ++ b).
              rewrite IH; [reflexivity | simpl in *; lia | exact Ht | exact Hb].
      * assert (Hne : t <> []).
        { intros ->. unfold terminated, is_break in Ht. simpl in Ht.
          rewrite (proj2 (N.eqb_neq c 10) Hn10), (proj2 (N.eqb_neq c 13) Hn13) in Ht. discriminate. }
        rewrite terminated_cons in Ht by assumption.
        cbn [app file_lines].
        rewrite (proj2 (N.eqb_neq c 10) Hn10), (proj2 (N.eqb_neq c 13) Hn13).
        rewrite IH; [| lia | exact Ht | exact Hb].
        pose proof (file_lines_nonempty t Hne).
        destruct (file_lines t); [congruence | reflexivity].
Qed.

Lemma file_lines_app a b :
  terminated a = true -> (forall t, b <> 10 :: t) ->
  file_lines (a ++ b) = file_lines a ++ file_lines b.
Proof. apply (file_lines_app_aux (length a)). lia. Qed.

Lemma file_lines_one_line s : one_line s -> file_lines (s ++ [10]) = [s ++ [10]].
Proof.
  induction 1 as [|c s Hc Hs IH]; [reflexivity|].
  cbn [app file_lines]. unfold is_break in Hc. apply orb_false_iff in Hc as [-> ->].
  rewrite IH. reflexivity.
Qed.

Lemma terminated_app_line a s : terminated (a ++ s ++ [10]) = true.
Proof.
  unfold terminated. rewrite app_assoc, last_snoc. reflexivity.
Qed.

Lemma numchar_digit c : is_digit c = true -> numchar c = true.
Proof. unfold numchar. intros ->. reflexivity. Qed.

Lemma span_digits_split s :
  s = fst (span_digits s) ++ snd (span_digits s)
  /\ forallb numchar (fst (span_digits s)) = true.
Proof.
  induction s as [|c s [IH1 IH2]]; [split; reflexivity|].
  simpl. destruct (is_digit c) eqn:E; [|split; reflexivity].
  destruct (span_digits s) as [ds r]. simpl in *. split; [congruence|].
  rewrite (numchar_digit c E), IH2. reflexivity.
Qed.

Lemma match_digits1_split s ds r :
  match_digits1 s = Some (ds, r) -> s = ds ++ r /\ forallb numchar ds = true.
Proof.
  destruct s as [|c s]; [discriminate|]. simpl.
  destruct (is_digit c) eqn:E; [|discriminate].
  destruct (span_digits_split s) as [H1 H2]. destruct (span_digits s) as [ds' r'].
  intros [= <- <-]. simpl in *. split; [congruence|].
  rewrite (numchar_digit c E), H2. reflexivity.
Qed.

Lemma match_natural_split s ds r :
  match_natural s = Some (ds, r) -> s = ds ++ r /\ forallb numchar ds = true.
Proof.
  destruct s as [|c s]; [discriminate|]. simpl.
  destruct (c =? 48) eqn:E0.
  - apply N.eqb_eq in E0. subst. intros [= <- <-]. split; reflexivity.
  - destruct (is_digit c) eqn:E; [|discriminate].
    destruct (span_digits_split s) as [H1 H2]. destruct (span_digits s) as [ds' r'].
    intros [= <- <-]. simpl in *. split; [congruence|].
    rewrite (numchar_digit c E), H2. reflexivity.
Qed.

Lemma match_integer_split s i r :
  match_integer s = Some (i, r) -> s = i ++ r /\ forallb numchar i = true.
Proof.
  unfold match_integer. destruct s as [|c s]; [discriminate|].
  destruct (N.eq_dec c 45) as [-> | Hne].
  - cbv iota beta. destruct (match_natural s) as [[ds r']|] eqn:E; [|discriminate].
    intros [= <- <-]. apply match_natural_split in E as [-> E]. split; [reflexivity | exact E].
  - intros H. apply match_natural_split.
    destruct c as [|p]; [exact H|].
    do 6 (destruct p as [p|p|]; try exact H). contradiction.
Qed.

Lemma match_frac_split s :
  s = fst (match_frac s) ++ snd (match_frac s)
  /\ forallb numchar (fst (match_frac s)) = true.
Proof.
  unfold match_frac. destruct s as [|c s]; [split; reflexivity|].
  destruct (N.eq_dec c 46) as [-> | Hne].
  - destruct s as [|d s]; [split; reflexivity|]. cbv iota beta.
    destruct (is_digit d) eqn:E; [|split; reflexivity].
    destruct (span_digits_split s) as [H1 H2]. destruct (span_digits s) as [ds' r'].
    simpl in *. split; [congruence|]. rewrite (numchar_digit d E), H2. reflexivity.
  - assert (E : match c :: s with
                | 46 :: c0 :: t =>
                    if is_digit c0 then let '(ds, r) := span_digits t in (46 :: c0 :: ds, r)
                    else ([], c :: s)
                | _ => ([], c :: s)
                end = ([], c :: s)).
    { destruct c as [|p]; [reflexivity|].
      do 6 (destruct p as [p|p|]; try reflexivity). contradiction. }
    rewrite E. split; reflexivity.
Qed.

Lemma match_exp_split s :
  s = fst (match_exp s) ++ snd (match_exp s)
  /\ forallb numchar (fst (match_exp s)) = true.
Proof.
  unfold match_exp. destruct s as [|c s]; [split; reflexivity|].
  destruct ((c =? 101) || (c =? 69)) eqn:Ee; [|split; reflexivity].
  assert (Hc : numchar c = true).
  { unfold numchar. apply orb_true_iff in Ee as [-> | ->]; rewrite ?orb_true_r; reflexivity. }
  destruct s as [|sg s]; [split; reflexivity|].
  destruct ((sg =? 43) || (sg =? 45)) eqn:Es.
  - assert (Hs : numchar sg = true).
    { unfold numchar. apply orb_true_iff in Es as [-> | ->]; rewrite ?orb_true_r; reflexivity. }
    destruct (match_digits1 s) as [[ds r]|] eqn:E; [|split; reflexivity].
    apply match_digits1_split in E as [-> E]. simpl. rewrite Hc, Hs, E. split; reflexivity.
  - destruct (match_digits1 (sg :: s)) as [[ds r]|] eqn:E; [|split; reflexivity].
    apply match_digits1_split in E as [E1 E]. simpl. rewrite Hc, E, E1. split; reflexivity.
Qed.

Section NumberCharacters.
Variable float_of_literal : pystr -> pystr.

Lemma match_number_split s v r :
  match_number float_of_literal s = Some (v, r) -> exists lit, s = lit ++ r /\ forallb numchar lit = true.
Proof.
  unfold match_number. destruct (match_integer s) as [[i r1]|] eqn:Ei; [|discriminate].
  apply match_integer_split in Ei as [-> Hi].
  destruct (match_frac_split r1) as [Hf1 Hf2]. destruct (match_frac r1) as [f r2].
  destruct (match_exp_split r2) as [He1 He2]. destruct (match_exp r2) as [e r3].
  simpl in *. intros H.
  assert (r = r3) as -> by (destruct f, e; congruence).
  exists (i ++ f ++ e). split.
  - rewrite Hf1, He1, <- !app_assoc. reflexivity.
  - rewrite !forallb_app, Hi, Hf2, He2. reflexivity.
Qed.
End NumberCharacters.

Lemma numchar_not_break c : numchar c = true -> is_break c = false.
Proof.
  unfold numchar, is_break, is_digit.
  rewrite !orb_true_iff, andb_true_iff, !N.leb_le, !N.eqb_eq, orb_false_iff, !N.eqb_neq. lia.
Qed.

Lemma one_line_numchars s : forallb numchar s = true -> one_line s.
Proof.
  intros H. apply Forall_forall. intros c Hc. apply numchar_not_break.
  rewrite forallb_forall in H. apply H, list_elem_of_In, Hc.
Qed.

Lemma one_line_app a b : one_line a -> one_line b -> one_line (a ++ b).
Proof. intros Ha Hb. apply Forall_app. split; assumption. Qed.

Lemma hex_digit_not_break d : d < 16 -> is_break (hex_digit d) = false.
Proof.
  intros H. unfold hex_digit, is_break. destruct (d <? 10);
    apply orb_false_iff; split; apply N.eqb_neq; lia.
Qed.

Lemma one_line_escape_char c : one_line (escape_char c).
Proof.
  unfold escape_char, one_line.
  destruct (c =? 34); [repeat constructor|].
  destruct (c =? 92); [repeat constructor|].
  destruct (c =? 10) eqn:E10; [repeat constructor|].
  destruct (c =? 13) eqn:E13; [repeat constructor|].
  destruct (c =? 9); [repeat constructor|].
  destruct (c =? 8); [repeat constructor|].
  destruct (c =? 12); [repeat constructor|].
  destruct (c <? 32) eqn:E.
  - apply N.ltb_lt in E. repeat constructor; apply hex_digit_not_break.
    + apply N.Div0.div_lt_upper_bound. lia.
    + apply N.mod_lt. lia.
  - repeat constructor. unfold is_break. rewrite E10, E13. reflexivity.
Qed.

Lemma one_line_encode_basestring s : one_line (encode_basestring s).
Proof.
  unfold encode_basestring. constructor; [reflexivity|]. apply one_line_app; [|repeat constructor].
  induction s as [|c s IH]; [constructor|]. simpl. apply one_line_app; [apply one_line_escape_char | exact IH].
Qed.

Lemma one_line_repr_int z : one_line (repr_int z).
Proof.
  apply one_line_numchars.
  assert (H : forall d, forallb numchar (uint_chars d) = true) by (induction d; simpl; auto).
  destruct z; simpl; unfold repr_N; rewrite ?H; reflexivity.
Qed.

Lemma one_line_join sep (parts : list pystr) :
  one_line sep -> Forall one_line parts -> one_line (join sep parts).
Proof.
  intros Hs. induction 1 as [|p parts Hp Hps IH]; [constructor|].
  destruct parts as [|q parts]; [exact Hp|].
  change (join sep (p :: q :: parts)) with (p ++ sep ++ join sep (q :: parts)).
  apply one_line_app; [exact Hp|]. apply one_line_app; [exact Hs | exact IH].
Qed.

Section PrintedLines.
Variable float_of_literal : pystr -> pystr.

(** A printed value holds no line break. *)
Lemma one_line_dumps v : well_formed float_of_literal v = true -> one_line (json_dumps v).
Proof.
  induction v as [|b|z|r|s|l IH|d IH] using pyval_nested_ind; intros Hwf.
  - repeat constructor.
  - destruct b; repeat constructor.
  - apply one_line_repr_int.
  - simpl in *. destruct (float_ok_cases float_of_literal r Hwf) as [-> | [-> | [-> | Hm]]];
      try (repeat constructor).
    apply match_number_split in Hm as (lit & -> & Hl). rewrite app_nil_r.
    apply one_line_numchars, Hl.
  - apply one_line_encode_basestring.
  - change (json_dumps (PList l)) with (91 :: join (u ", ") (map json_dumps l) ++ [93]).
    constructor; [reflexivity|]. apply one_line_app; [|repeat constructor].
    apply one_line_join; [repeat constructor|].
    simpl in Hwf. rewrite forallb_forall in Hwf. rewrite Forall_forall in IH.
    apply Forall_forall. intros x Hx. apply list_elem_of_fmap in Hx as (y & -> & Hy).
    apply (IH y Hy), Hwf, list_elem_of_In, Hy.
  - change (json_dumps (PDict d)) with (123 :: join (u ", ") (map member d) ++ [125]).
    constructor; [reflexivity|]. apply one_line_app; [|repeat constructor].
    apply one_line_join; [repeat constructor|].
    simpl in Hwf. apply andb_true_iff in Hwf as [_ Hwf].
    rewrite forallb_forall in Hwf. rewrite Forall_forall in IH.
    apply Forall_forall. intros x Hx. apply list_elem_of_fmap in Hx as (kv & -> & Hy).
    unfold member. apply one_line_app; [apply one_line_encode_basestring|].
    apply one_line_app; [repeat constructor|].
    apply (IH kv Hy), Hwf, list_elem_of_In, Hy.
Qed.
End PrintedLines.




Section ReaderSpec.

Variable float_of_literal : pystr -> pystr.





Lemma advance_advance k out k' out' w :
  advance k' out' (advance k out w) = advance (k + k') (out ++ out') w.
Proof. unfold advance. simpl. rewrite Nat.add_assoc, app_assoc. reflexivity. Qed.


End ReaderSpec.





Lemma dict_set_keys k v d :
  map fst (dict_set k v d) = if bool_decide (k ∈ map fst d) then map fst d else map fst d ++ [k].
Proof.
  induction d as [|[k' v'] d IH]; simpl; [reflexivity|].
  destruct (pystr_eqb k' k) eqn:E.
  - apply pystr_eqb_eq in E. subst. rewrite bool_decide_eq_true_2 by left. reflexivity.
  - simpl. rewrite IH. 
    assert (k <> k') by (intros ->; rewrite pystr_eqb_refl in E; discriminate).
    destruct (bool_decide (k ∈ map fst d)) eqn:Eb.
    + apply bool_decide_eq_true in Eb. rewrite bool_decide_eq_true_2 by (right; exact Eb). reflexivity.
    + apply bool_decide_eq_false in Eb. rewrite bool_decide_eq_false_2; [reflexivity|].
      rewrite elem_of_cons. tauto.
Qed.

Lemma dict_set_unique k v d : NoDup (map fst d) -> NoDup (map fst (dict_set k v d)).
Proof.
  intros H. rewrite dict_set_keys. case_bool_decide as Hk; [exact H|].
  apply NoDup_app. repeat split; [exact H | | apply NoDup_singleton].
  intros x Hx Hx'. apply list_elem_of_singleton in Hx'. subst. contradiction.
Qed.

Lemma dict_set_values (P : pyval -> Prop) k v d :
  P v -> Forall (fun kv => P (snd kv)) d -> Forall (fun kv => P (snd kv)) (dict_set k v d).
Proof.
  intros Hv. induction 1 as [|[k' v'] d Hk Hd IH]; simpl.
  - repeat constructor. exact Hv.
  - destruct (pystr_eqb k' k); constructor; assumption.
Qed.

Lemma dict_update_wf (P : pyval -> Prop) pairs : forall d,
  NoDup (map fst d) -> Forall (fun kv => P (snd kv)) d ->
  Forall (fun kv => P (snd kv)) pairs ->
  NoDup (map fst (dict_update d pairs)) /\ Forall (fun kv => P (snd kv)) (dict_update d pairs).
Proof.
  induction pairs as [|[k v] pairs IH]; intros d Hn Hd Hp; [split; assumption|].
  apply Forall_cons in Hp as [Hv Hp]. unfold dict_update in *. simpl.
  apply IH; [apply dict_set_unique, Hn | apply dict_set_values; assumption | exact Hp].
Qed.

Section LogFileRoundTrip.
Variable float_of_literal : pystr -> pystr.





End LogFileRoundTrip.

(** ** The decoder's fuel *)






Section Fuel.

Variable float_of_literal : pystr -> pystr.









End Fuel.

(** ** Dictionaries and the fields of a log entry *)

Lemma dict_get_set k k' v d :
  dict_get k (dict_set k' v d) = if pystr_eqb k' k then Some v else dict_get k d.
Proof.
  induction d as [|[k0 v0] d IH]; simpl.
  - reflexivity.
  - destruct (pystr_eqb k0 k') eqn:E0; simpl.
    + apply pystr_eqb_eq in E0. subst k0. destruct (pystr_eqb k' k); reflexivity.
    + rewrite IH. destruct (pystr_eqb k0 k) eqn:E1; [|reflexivity].
      apply pystr_eqb_eq in E1. subst k0.
      destruct (pystr_eqb k' k) eqn:E2; [|reflexivity].
      apply pystr_eqb_eq in E2. subst k'. rewrite pystr_eqb_refl in E0. discriminate.
Qed.

Lemma dict_get_None k d : dict_get k d = None <-> k ∉ map fst d.
Proof.
  induction d as [|[k0 v0] d IH]; simpl.
  - split; [intros _; apply not_elem_of_nil | reflexivity].
  - rewrite not_elem_of_cons. destruct (pystr_eqb k0 k) eqn:E.
    + apply pystr_eqb_eq in E. subst. split; [discriminate | intros [H _]; congruence].
    + rewrite IH. split; [|tauto]. intros H. split; [|exact H].
      intros ->. rewrite pystr_eqb_refl in E. discriminate.
Qed.

(** [{**d, **pairs}[k]]: the value [pairs] gives the key, when it has it. *)
Lemma dict_get_update k pairs : forall d,
  NoDup (map fst pairs) ->
  dict_get k (dict_update d pairs)
  = match dict_get k pairs with
    | Some v => Some v
    | None => dict_get k d
    end.
Proof.
  induction pairs as [|[k1 v1] pairs IH]; intros d Hn; [reflexivity|].
  apply NoDup_cons in Hn as [Hk1 Hn]. unfold dict_update in *. cbn [fold_left fst snd].
  rewrite (IH _ Hn), dict_get_set. cbn [dict_get].
  destruct (pystr_eqb k1 k) eqn:E; [|reflexivity].
  apply pystr_eqb_eq in E. subst k1.
  rewrite (proj2 (dict_get_None k pairs) Hk1). reflexivity.
Qed.

Lemma dict_update_head k v d pairs :
  head (map fst (dict_update ((k, v) :: d) pairs)) = Some k.
Proof.
  revert v d. induction pairs as [|[k1 v1] pairs IH]; intros v d; [reflexivity|].
  unfold dict_update in *. cbn [fold_left fst snd dict_set].
  destruct (pystr_eqb k k1); apply IH.
Qed.

(** X12: [make_log_entry] reads the clock once and returns the entry with
    the two members [tipo] and [log_datos]; [log_datos] is a dict that starts
    with [timestamp] and holds every member of [datos] with the value [datos]
    gives it, so a [timestamp] in [datos] replaces the clock's; without one
    the timestamp is the clock's with [Z] appended; and it has no other
    member. *)
Theorem make_log_entry_fields tipo datos w :
  keys_unique (map fst datos) = true ->
  exists log_datos,
    make_log_entry tipo datos w
    = (Ret (PDict [(u "tipo", PStr tipo); (u "log_datos", PDict log_datos)]), tick w)
    /\ keys_unique (map fst log_datos) = true
    /\ head (map fst log_datos) = Some (u "timestamp")
    /\ (forall k v, dict_get k datos = Some v -> dict_get k log_datos = Some v)
    /\ (dict_get (u "timestamp") datos = None ->
        dict_get (u "timestamp") log_datos = Some (PStr (clock w (ticks w) ++ u "Z")))
    /\ (forall k, k <> u "timestamp" -> dict_get k datos = None -> dict_get k log_datos = None).
Proof.
  intros Hu. apply keys_unique_NoDup in Hu.
  exists (dict_update [(u "timestamp", PStr (now w))] datos).
  split; [reflexivity|]. split; [|split; [apply dict_update_head|]].
  - apply keys_unique_NoDup.
    apply (dict_update_wf (fun _ => True) datos [(u "timestamp", PStr (now w))]).
    + repeat constructor. apply not_elem_of_nil.
    + repeat constructor.
    + apply Forall_forall. auto.
  - split; [|split].
    + intros k v H. rewrite (dict_get_update _ _ _ Hu), H. reflexivity.
    + intros H. rewrite (dict_get_update _ _ _ Hu), H. reflexivity.
    + intros k Hk H. rewrite (dict_get_update _ _ _ Hu), H. cbn [dict_get].
      rewrite pystr_eqb_neq by congruence. reflexivity.
Qed.

(** ** Identifiers *)

Lemma is_hex_digit d : d < 16 -> is_hex (hex_digit d) = true.
Proof.
  intros H. unfold is_hex, hex_digit, is_digit. destruct (d <? 10) eqn:E.
  - apply N.ltb_lt in E. apply orb_true_iff. left. apply andb_true_iff. rewrite !N.leb_le. lia.
  - apply N.ltb_ge in E. apply orb_true_iff. right. apply andb_true_iff. rewrite !N.leb_le. lia.
Qed.

Lemma hex_digits_hex k n : forallb is_hex (hex_digits k n) = true.
Proof.
  revert n. induction k as [|k IH]; intros n; [reflexivity|].
  simpl. rewrite forallb_app, IH. simpl. rewrite is_hex_digit; [reflexivity|].
  apply N.mod_lt. discriminate.
Qed.

(** The digit at a position, counted from the most significant one. *)
Lemma hex_digits_lookup k : forall n i,
  (i < k)%nat ->
  hex_digits k n !! i = Some (hex_digit ((n / 16 ^ N.of_nat (k - 1 - i)) mod 16)).
Proof.
  induction k as [|k IH]; intros n i Hi; [lia|].
  cbn [hex_digits]. destruct (decide (i = k)) as [-> | Hne].
  - rewrite lookup_app_r by (rewrite length_hex_digits; lia).
    rewrite length_hex_digits, Nat.sub_diag. replace (S k - 1 - k)%nat with 0%nat by lia.
    cbn [lookup list_lookup N.of_nat]. rewrite N.pow_0_r, N.div_1_r. reflexivity.
  - rewrite lookup_app_l by (rewrite length_hex_digits; lia).
    rewrite IH by lia. do 3 f_equal.
    replace (S k - 1 - i)%nat with (S (k - 1 - i)) by lia.
    rewrite Nat2N.inj_succ, N.pow_succ_r', N.Div0.div_div. reflexivity.
Qed.

(** The version field: bits 76 to 79 hold 4. *)
Lemma uuid4_version r : (uuid4_int r / 16 ^ 19) mod 16 = 4.
Proof.
  change (16 ^ 19) with (2 ^ 76). change 16 with (2 ^ 4).
  rewrite <- N.shiftr_div_pow2, <- N.land_ones.
  apply N.bits_inj. intros i. unfold uuid4_int.
  rewrite N.land_spec, N.shiftr_spec', N.lor_spec, N.ldiff_spec.
  destruct (N.ltb_spec i 4) as [Hi | Hi].
  - rewrite N.ones_spec_low, andb_true_r by exact Hi.
    assert (Hc : i = 0 \/ i = 1 \/ i = 2 \/ i = 3) by lia.
    destruct Hc as [-> | [-> | [-> | ->]]]; cbn [N.add];
      rewrite ?andb_false_r; reflexivity.
  - rewrite N.ones_spec_high, andb_false_r by exact Hi.
    symmetry. apply N.bits_above_log2. simpl. lia.
Qed.

(** The variant field: bits 62 and 63 hold 0 and 1. *)
Lemma uuid4_variant r :
  let v := (uuid4_int r / 16 ^ 15) mod 16 in v = 8 \/ v = 9 \/ v = 10 \/ v = 11.
Proof.
  intros v.
  assert (Hlt : v < 16) by (apply N.mod_lt; discriminate).
  assert (Hbits : N.testbit v 3 = true /\ N.testbit v 2 = false).
  { subst v. change (16 ^ 15) with (2 ^ 60). change 16 with (2 ^ 4).
    rewrite <- N.shiftr_div_pow2, <- N.land_ones. unfold uuid4_int.
    rewrite !N.land_spec, !N.shiftr_spec', !N.lor_spec, !N.ldiff_spec, !N.lor_spec, !N.ldiff_spec.
    change (3 + 60) with 63. change (2 + 60) with 62. split.
    - change (N.testbit (N.shiftl 32768 48) 63) with true.
      change (N.testbit (N.shiftl 61440 64) 63) with false.
      rewrite orb_true_r. reflexivity.
    - change (N.testbit (N.shiftl 49152 48) 62) with true.
      change (N.testbit (N.shiftl 32768 48) 62) with false.
      cbn [negb]. rewrite andb_false_r. reflexivity. }
  destruct Hbits as [H3 H2].
  assert (Hc : v = 0 \/ v = 1 \/ v = 2 \/ v = 3 \/ v = 4 \/ v = 5 \/ v = 6 \/ v = 7
               \/ v = 8 \/ v = 9 \/ v = 10 \/ v = 11 \/ v = 12 \/ v = 13 \/ v = 14 \/ v = 15) by lia.
  clearbody v.
  repeat (destruct Hc as [-> | Hc]; [try discriminate H3; try discriminate H2; tauto|]).
  subst v. discriminate H2.
Qed.

Lemma uuid_text_of_digits (h : pystr) v :
  length h = 32%nat -> forallb is_hex h = true ->
  h !! 12%nat = Some 52 -> h !! 16%nat = Some v ->
  v = 56 \/ v = 57 \/ v = 97 \/ v = 98 ->
  is_uuid4_text
    (take 8 h ++ u "-" ++ take 4 (drop 8 h) ++ u "-" ++ take 4 (drop 12 h) ++ u "-"
     ++ take 4 (drop 16 h) ++ u "-" ++ drop 20 h) = true.
Proof.
  intros Hlen Hhex H12 H16 Hv.
  do 32 (destruct h as [|? h]; [discriminate Hlen|]). destruct h; [|discriminate Hlen].
  injection H12 as ->. injection H16 as ->.
  unfold is_uuid4_text.
  cbn [take drop app u map list_ascii_of_string N_of_ascii N_of_digits join zip zip_with
       forallb length fst snd Nat.eqb lookup list_lookup andb].
  cbn [forallb] in Hhex.
  repeat match type of Hhex with
  | (_ && _) = true => let H := fresh "X" in apply andb_true_iff in Hhex as [H Hhex]
  end.
  rewrite pystr_eqb_refl.
  repeat match goal with H : is_hex _ = true |- _ => rewrite H; clear H end.
  destruct Hv as [-> | [-> | [-> | ->]]]; reflexivity.
Qed.

(** X13: whatever the random source gives, [str(uuid.uuid4())] is the text
    of a version 4 UUID: 36 characters, five groups of lowercase hexadecimal
    digits joined by hyphens, the version digit [4] and a variant digit among
    [8], [9], [a] and [b]; and the call takes one draw. *)
Theorem uuid4_is_version_4 w :
  exists s,
    uuid4 w = (Ret s, draw w)
    /\ s = next_uuid w
    /\ is_uuid4_text s = true
    /\ length s = 36%nat.
Proof.
  exists (next_uuid w). split; [reflexivity|]. split; [reflexivity|].
  split; [|apply length_uuid_str].
  unfold next_uuid, uuid_str. cbv zeta. set (r := urandom w (draws w)).
  pose proof (uuid4_variant r) as Hv. cbv zeta in Hv.
  apply (uuid_text_of_digits _ (hex_digit ((uuid4_int r / 16 ^ 15) mod 16))).
  - apply length_hex_digits.
  - apply hex_digits_hex.
  - rewrite hex_digits_lookup by lia. change (N.of_nat (32 - 1 - 12)) with 19.
    rewrite uuid4_version. reflexivity.
  - rewrite hex_digits_lookup by lia. reflexivity.
  - destruct Hv as [-> | [-> | [-> | ->]]]; cbv; tauto.
Qed.

(** ** Decoded values

    A number literal read from the head of a text is read the same when it
    stands alone. *)
















Section DecodedValues.
Variable float_of_literal : pystr -> pystr.








End DecodedValues.

(** ** More answers of the handler *)

Section HandlerAnswers.
Variable float_of_literal : pystr -> pystr.







(** X8: an event that carries no body, because it is not a dict at all
    ([None], a list, a string, a number) or is a dict without the key [body],
    is handled as the empty object: the answer is the 400 naming
    [tenant_id]. *)
Theorem event_without_body_rejected event context w :
  (forall fields, event = PDict fields -> dict_get (u "body") fields = None) ->
  normalize float_of_literal event = PDict []
  /\ lambda_handler float_of_literal event context w
     = (Ret (bad_request (u "tenant_id")),
        logged (missing_entry (now w) (u "tenant_id") (PDict [])) (tick w)).
Proof.
  intros H.
  assert (Hn : normalize float_of_literal event = PDict []).
  { unfold normalize, py_get. destruct event as [|b|z|r|s|l|fields]; try reflexivity.
    rewrite (H fields eq_refl). reflexivity. }
  split; [exact Hn|]. apply (handler_missing _ _ _ _ _ _ Hn). reflexivity.
Qed.


(** X10: of a body that holds both fields only the two fields count: two
    requests whose bodies give [tenant_id] and [pelicula_datos] the same
    values are answered the same and leave the same world, whatever else the
    bodies hold; the other members are neither stored nor logged. *)
Theorem only_required_fields_matter event event' context w d d' t p :
  normalize float_of_literal event = PDict d ->
  normalize float_of_literal event' = PDict d' ->
  dict_get (u "tenant_id") d = Some t ->
  dict_get (u "pelicula_datos") d = Some p ->
  dict_get (u "tenant_id") d' = Some t ->
  dict_get (u "pelicula_datos") d' = Some p ->
  lambda_handler float_of_literal event context w
  = lambda_handler float_of_literal event' context w.
Proof.
  intros Hn Hn' Et Ep Et' Ep'.
  rewrite (handler_fields _ _ _ _ _ _ _ Hn Et Ep), (handler_fields _ _ _ _ _ _ _ Hn' Et' Ep').
  reflexivity.
Qed.


End HandlerAnswers.

(** ** The log file as a journal *)

Section Journal.
Variable float_of_literal : pystr -> pystr.

Lemma dumps_not_break v t :
  well_formed float_of_literal v = true -> json_dumps v ++ [10] <> 10 :: t.
Proof.
  intros Hwf. destruct (dumps_head float_of_literal v Hwf) as (c & t' & -> & Hsv).
  intros [= -> _]. destruct (starts_value_facts _ Hsv) as (H & _). discriminate.
Qed.



(** X14: appending an entry adds exactly one line to the log file, whatever
    line breaks the strings of the entry hold: the lines of the file are the
    lines it had and then the printed entry; the file stays one that can be
    extended; nothing is printed; and no other file changes. *)
Theorem append_adds_one_line entry path w :
  well_formed float_of_literal entry = true ->
  write_error w path (json_dumps entry ++ [10]) = None ->
  appendable (files w !! path) = true ->
  let w' := snd (append_log_file entry path w) in
  file_lines (default [] (files w' !! path))
  = file_lines (default [] (files w !! path)) ++ [json_dumps entry ++ [10]]
  /\ appendable (files w' !! path) = true
  /\ stdout w' = stdout w
  /\ forall other, other <> path -> files w' !! other = files w !! other.
Proof.
  intros Hwf Hw Ha w'. subst w'. rewrite append_log_file_run, Hw.
  cbn [snd files with_files stdout].
  rewrite lookup_insert_eq. cbn [default from_option id appendable].
  split; [|split; [apply terminated_app_line | split; [reflexivity|]]].
  - rewrite file_lines_app.
    + rewrite (file_lines_one_line _ (one_line_dumps float_of_literal entry Hwf)). reflexivity.
    + destruct (files w !! path); [exact Ha | reflexivity].
    + intros t. apply dumps_not_break, Hwf.
  - intros other Hne. apply lookup_insert_ne. congruence.
Qed.











End Journal.

(** ** Counting and the entries as loaded *)


(** X20: an entry whose [tipo] is a list or a dict cannot be counted: when
    the entries before it have a [tipo] that can be a key (or none),
    [count_by_tipo] raises [TypeError] at that entry, whatever comes after;
    [filter_by_tipo] on the same entries returns, and never keeps that
    entry. *)
Theorem unhashable_tipo_stops_count before e after tipo :
  Forall (fun e' => exists k, key_of (counted_as e') = Some (Some k)) before ->
  (exists l, dict_get (u "tipo") e = Some (PList l))
  \/ (exists d, dict_get (u "tipo") e = Some (PDict d)) ->
  count_by_tipo (before ++ e :: after) = Unhashable
  /\ filter_by_tipo (before ++ e :: after) tipo = filter_by_tipo (before ++ after) tipo.
Proof.
  intros Hb He. split.
  - unfold count_by_tipo. generalize (@nil (pyval * hash_key * Z)).
    induction Hb as [|e' before [k Hk] _ IH]; intros counts.
    + cbn [app count_from]. destruct He as [[l ->] | [d ->]]; reflexivity.
    + cbn [app count_from]. fold (counted_as e'). rewrite Hk. apply IH.
  - unfold filter_by_tipo. rewrite !List.filter_app. f_equal. cbn [List.filter].
    unfold tipo_is at 1. destruct He as [[l ->] | [d ->]]; reflexivity.
Qed.




Section LoadedQueries.
Variable float_of_literal : pystr -> pystr.


End LoadedQueries.

(** ** Printed entries *)

Section PrintedEntries.
Variable float_of_literal : pystr -> pystr.


End PrintedEntries.

(** ** The status and its cause *)

Section StatusAndCause.
Variable float_of_literal : pystr -> pystr.

Lemma puts_logged entry w : puts (logged entry w) = puts w.
Proof. destruct (logged_frame entry w) as (_ & _ & _ & _ & Fp & _). exact Fp. Qed.

(** X24: the status of an answer tells what happened.  The body was an
    object in every case; 200 is answered only when both fields were there,
    a table name was configured and the put of the record returned; 400 only
    when a field was missing, and then nothing was submitted; 502 only when
    the put raised an error of the storage client; 500 only when no table
    name was configured (and nothing was submitted) or the put raised another
    exception. *)
Theorem status_tells_the_cause event context w r w' :
  lambda_handler float_of_literal event context w = (Ret r, w') ->
  exists d,
    normalize float_of_literal event = PDict d
    /\ (statusCode r = 200%Z ->
        exists t p name resp,
          dict_get (u "tenant_id") d = Some t /\ dict_get (u "pelicula_datos") d = Some p
          /\ environ w !! u "TABLE_NAME" = Some name /\ name <> []
          /\ table_service w name (movie t (next_uuid w) p) = Ret resp
          /\ puts w' = puts w ++ [(name, movie t (next_uuid w) p)]
          /\ r = created (movie t (next_uuid w) p) resp)
    /\ (statusCode r = 400%Z ->
        (dict_get (u "tenant_id") d = None \/ dict_get (u "pelicula_datos") d = None)
        /\ puts w' = puts w)
    /\ (statusCode r = 502%Z ->
        exists name item msg,
          table_service w name item = Raise (ClientError msg)
          /\ puts w' = puts w ++ [(name, item)])
    /\ (statusCode r = 500%Z ->
        (falsy (environ w !! u "TABLE_NAME") = true /\ puts w' = puts w)
        \/ exists name item e,
             table_service w name item = Raise e
             /\ (forall msg, e <> ClientError msg)
             /\ puts w' = puts w ++ [(name, item)]).
Proof.
  intros Hrun.
  destruct (normalize float_of_literal event) as [|b|z|f|s|l|d] eqn:Hn;
    try (destruct (handler_not_dict float_of_literal event context w) as (e & He & _);
         [rewrite Hn; discriminate | rewrite He in Hrun; discriminate]).
  exists d. split; [reflexivity|].
  destruct (dict_get (u "tenant_id") d) as [t|] eqn:Et.
  - destruct (dict_get (u "pelicula_datos") d) as [p|] eqn:Ep.
    + rewrite (handler_fields _ _ _ _ _ _ _ Hn Et Ep) in Hrun.
      destruct (falsy (environ w !! u "TABLE_NAME")) eqn:Ef.
      * injection Hrun as <- <-. rewrite puts_logged.
        split; [intros H; discriminate H|]. split; [intros H; discriminate H|].
        split; [intros H; discriminate H|]. intros _. left. split; reflexivity.
      * destruct (environ w !! u "TABLE_NAME") as [[|c name]|] eqn:Ee; try discriminate.
        cbn [default from_option id] in Hrun. cbv zeta in Hrun.
        destruct (table_service w (c :: name) (movie t (next_uuid w) p)) as [resp|e] eqn:Es.
        -- injection Hrun as <- <-. rewrite puts_logged.
           split; [|split; [intros H; discriminate H|split; intros H; discriminate H]].
           intros _. exists t, p, (c :: name), resp.
           repeat (split; [first [reflexivity | discriminate | exact Es]|]). reflexivity.
        -- destruct e; injection Hrun as <- <-; rewrite puts_logged;
             (split; [intros H; discriminate H|]); (split; [intros H; discriminate H|]).
           all: try (split; [intros H; discriminate H|]; intros _; right;
                     eexists _, _, _; split; [exact Es|]; split; [discriminate | reflexivity]).
           split; [|intros H; discriminate H].
           intros _. eexists _, _, _. split; [exact Es | reflexivity].
    + rewrite (handler_missing _ _ _ w _ (u "pelicula_datos") Hn) in Hrun
        by (rewrite required_fields_dict, Et, Ep; reflexivity).
      injection Hrun as <- <-. rewrite puts_logged.
      split; [intros H; discriminate H|]. split; [|split; intros H; discriminate H].
      intros _. split; [right; reflexivity | reflexivity].
  - rewrite (handler_missing _ _ _ w _ (u "tenant_id") Hn) in Hrun
      by (rewrite required_fields_dict, Et; reflexivity).
    injection Hrun as <- <-. rewrite puts_logged.
    split; [intros H; discriminate H|]. split; [|split; intros H; discriminate H].
    intros _. split; [left; reflexivity | reflexivity].
Qed.

End StatusAndCause.

(** ** Members given twice *)



Section RepeatedMembers.
Variable float_of_literal : pystr -> pystr.



End RepeatedMembers.

(** ** One counter for each category *)





(** ** Line endings *)




Section LineEndings.
Variable float_of_literal : pystr -> pystr.



End LineEndings.

(** * The sample run *)



Lemma unparseable_body_rejected_witness :
  normalize literal_float garbled_event = PDict [] /\
  lambda_handler literal_float garbled_event PNone sample_world
  = (Ret (bad_request (u "tenant_id")),
     logged (missing_entry (now sample_world) (u "tenant_id") (PDict [])) (tick sample_world)).
Proof.
  exact (unparseable_body_rejected literal_float garbled_event PNone sample_world
           [(u "body", PStr (u "{not valid json"))] (u "{not valid json")
           eq_refl eq_refl eq_refl).
Defined.









Lemma other_body_raises_witness :
  exists msg,
    lambda_handler literal_float (PDict [(u "body", PInt 5)]) PNone sample_world
    = (Raise (TypeError msg), sample_world).
Proof.
  apply (other_body_raises literal_float (PDict [(u "body", PInt 5)]) PNone sample_world).
  intros d. discriminate.
Defined.





Lemma event_without_body_rejected_witness :
  normalize literal_float PNone = PDict []
  /\ lambda_handler literal_float PNone PNone sample_world
     = (Ret (bad_request (u "tenant_id")),
        logged (missing_entry (now sample_world) (u "tenant_id") (PDict [])) (tick sample_world)).
Proof.
  apply (event_without_body_rejected literal_float PNone PNone sample_world).
  intros fields H. discriminate H.
Defined.


Lemma only_required_fields_matter_witness :
  lambda_handler literal_float sample_event PNone sample_world
  = lambda_handler literal_float verbose_event PNone sample_world.
Proof.
  exact (only_required_fields_matter literal_float sample_event verbose_event PNone sample_world
           sample_body (sample_body ++ [(u "comment", PStr (u "ignored"))])
           (PStr (u "t1")) (PDict [(u "title", PStr (u "X"))])
           eq_refl eq_refl eq_refl eq_refl eq_refl eq_refl).
Defined.


Lemma make_log_entry_fields_witness :
  exists log_datos,
    make_log_entry (u "INFO") sample_datos sample_world
    = (Ret (PDict [(u "tipo", PStr (u "INFO")); (u "log_datos", PDict log_datos)]),
       tick sample_world)
    /\ keys_unique (map fst log_datos) = true
    /\ head (map fst log_datos) = Some (u "timestamp")
    /\ (forall k v, dict_get k sample_datos = Some v -> dict_get k log_datos = Some v)
    /\ (dict_get (u "timestamp") sample_datos = None ->
        dict_get (u "timestamp") log_datos
        = Some (PStr (clock sample_world (ticks sample_world) ++ u "Z")))
    /\ (forall k, k <> u "timestamp" -> dict_get k sample_datos = None ->
        dict_get k log_datos = None).
Proof. exact (make_log_entry_fields (u "INFO") sample_datos sample_world eq_refl). Defined.

Lemma append_adds_one_line_witness :
  let w' := snd (append_log_file sample_entry LOG_PATH journal_world) in
  file_lines (default [] (files w' !! LOG_PATH))
  = file_lines (default [] (files journal_world !! LOG_PATH)) ++ [json_dumps sample_entry ++ [10]]
  /\ appendable (files w' !! LOG_PATH) = true
  /\ stdout w' = stdout journal_world
  /\ forall other, other <> LOG_PATH -> files w' !! other = files journal_world !! other.
Proof.
  apply (append_adds_one_line literal_float sample_entry LOG_PATH journal_world).
  - reflexivity.
  - reflexivity.
  - unfold journal_world. cbn [files with_files]. rewrite lookup_singleton_eq. reflexivity.
Defined.





Lemma unhashable_tipo_stops_count_witness :
  count_by_tipo ([[(u "tipo", PStr (u "ERROR"))]] ++ odd_entry :: [[(u "tipo", PStr (u "INFO"))]])
  = Unhashable
  /\ filter_by_tipo
       ([[(u "tipo", PStr (u "ERROR"))]] ++ odd_entry :: [[(u "tipo", PStr (u "INFO"))]])
       (u "ERROR")
     = filter_by_tipo ([[(u "tipo", PStr (u "ERROR"))]] ++ [[(u "tipo", PStr (u "INFO"))]])
         (u "ERROR").
Proof.
  apply (unhashable_tipo_stops_count [[(u "tipo", PStr (u "ERROR"))]] odd_entry
           [[(u "tipo", PStr (u "INFO"))]] (u "ERROR")).
  - repeat constructor. eexists. reflexivity.
  - left. eexists. reflexivity.
Defined.



Lemma status_tells_the_cause_witness :
  exists t p name resp,
    dict_get (u "tenant_id") sample_body = Some t
    /\ dict_get (u "pelicula_datos") sample_body = Some p
    /\ environ sample_world !! u "TABLE_NAME" = Some name
    /\ table_service sample_world name (movie t (next_uuid sample_world) p) = Ret resp
    /\ puts (snd (lambda_handler literal_float sample_event PNone sample_world))
       = [(name, movie t (next_uuid sample_world) p)].
Proof.
  destruct (status_tells_the_cause literal_float sample_event PNone sample_world
              (created (movie (PStr (u "t1")) (next_uuid sample_world)
                          (PDict [(u "title", PStr (u "X"))])) sample_response)
              (snd (lambda_handler literal_float sample_event PNone sample_world)) eq_refl)
    as (d & Hn & H200 & _).
  injection Hn as <-.
  destruct (H200 eq_refl) as (t & p & name & resp & Et & Ep & Ee & _ & Es & Hp & _).
  exists t, p, name, resp. repeat (split; [assumption|]). exact Hp.
Defined.





